(** * MatrixRiskEngine: risk analytics core

    A shallow embedding of the risk-measurement code of the repository
    (domain objects, [OREAdapter], the two orchestration services and the
    statistics block of [scripts/var_backtest.py]) together with the
    properties the specification states about it.

    Numeric model.  A Python [float] is a rational number [Q]: arithmetic
    is exact, and literals such as [0.95] or [1e-6] denote the decimal
    fractions they spell.  Rounding is not modelled, nor are the
    infinities.  [NaN] is represented where the source itself handles or
    produces it: a missing cell of a [DataFrame] and the valuations read
    from such cells ([option Q], [None] standing for NaN), the Kupiec
    statistic, and the nullable fields of a stress-test row.  The
    percentages behind the confidence labels, where truncation follows a
    rounded product, are checked on binary64 floats as well.

    Library functions with no rational counterpart ([scipy.stats.norm.ppf],
    [Series.std], [numpy.log]) are parameters of the definitions that call
    them.  The data port and the report port of the services are
    parameters too.

    A [dict] is an association list in insertion order; exceptions are
    the [Raise] outcomes of a small error monad. *)

From Stdlib Require Import String Ascii List Bool.
From Stdlib Require Import ZArith QArith Qabs Qround Qminmax.
From Stdlib Require Import Lia Lqa.
From Stdlib Require Import Sorted Permutation Mergesort Orders.
From Stdlib Require Import Decimal DecimalString.
From Stdlib Require Import PrimFloat FloatOps SpecFloat.
Import ListNotations.

Local Open Scope string_scope.
Local Open Scope list_scope.
Local Open Scope Q_scope.

(** ** Python values: exceptions, dictionaries, number formatting *)

Module Py.

(** The reason carried by a [ValueError]; the source formats each one into
    a message. *)
Inductive value_error : Type :=
| ConfidenceOutOfRange (level : Q)
| UnknownVaRMethod (method : string)
| PercentileOutOfRange (q : Q)
| LevelsMismatch (var_levels cvar_levels : list string)
| CVaRAboveVaR (level : string) (var_val cvar_val : Q)
| SymbolsMismatch (missing_in_weights missing_in_positions : list string)
| WeightSum (weight_sum : Q)
| NegativeNav (nav : Q)
| EmptyScenarioName
| NoShocks (name : string)
| ExtremeShocks (name : string) (extreme_shocks : list (string * Q))
| NoScenario
| NoMarketData.

Inductive exn : Type :=
| ValueError (reason : value_error)
| InsufficientDataError (required_days available_days : Z)
| PricingError (symbol : string) (message : string)
| KeyError (key : string)
| IndexError.

Inductive result (A : Type) : Type :=
| Ok (a : A)
| Raise (e : exn).

Arguments Ok {A} a.
Arguments Raise {A} e.

Definition bind {A B : Type} (m : result A) (k : A -> result B) : result B :=
  match m with
  | Ok a => k a
  | Raise e => Raise e
  end.

Definition is_ok {A : Type} (m : result A) : bool :=
  match m with Ok _ => true | Raise _ => false end.

(** [for x in xs: body x] where the body may raise: the first exception
    ends the loop. *)
Fixpoint for_each {A S : Type} (xs : list A) (body : A -> S -> result S)
    (s : S) : result S :=
  match xs with
  | [] => Ok s
  | x :: rest => bind (body x s) (for_each rest body)
  end.

(** A [dict] with [str] keys keeps its insertion order. *)
Definition dict (V : Type) : Type := list (string * V).

Fixpoint dict_get {V : Type} (k : string) (d : dict V) : option V :=
  match d with
  | [] => None
  | (k', v) :: rest => if String.eqb k k' then Some v else dict_get k rest
  end.

Definition dict_mem {V : Type} (k : string) (d : dict V) : bool :=
  match dict_get k d with Some _ => true | None => false end.

(** [d[k] = v]: an existing key keeps its place, a new one goes last. *)
Fixpoint dict_set {V : Type} (k : string) (v : V) (d : dict V) : dict V :=
  match d with
  | [] => [(k, v)]
  | (k', v') :: rest =>
      if String.eqb k k' then (k', v) :: rest
      else (k', v') :: dict_set k v rest
  end.

Definition keys {V : Type} (d : dict V) : list string := map fst d.
Definition values {V : Type} (d : dict V) : list V := map snd d.

Definition str_mem (s : string) (l : list string) : bool :=
  existsb (String.eqb s) l.

(** [set(a) - set(b)] and [set(a) != set(b)] on lists of keys. *)
Definition set_diff (a b : list string) : list string :=
  filter (fun s => negb (str_mem s b)) a.

Definition set_eqb (a b : list string) : bool :=
  forallb (fun s => str_mem s b) a && forallb (fun s => str_mem s a) b.

(** [int(x)] on a float truncates toward zero. *)
Definition int_of_float (x : Q) : Z := Z.quot (Qnum x) (Zpos (Qden x)).

(** [str(n)] on an int. *)
Definition str_of_int (n : Z) : string := NilZero.string_of_int (Z.to_int n).

(** [sum(xs)] over floats. *)
Fixpoint Qsum (l : list Q) : Q :=
  match l with
  | [] => 0
  | x :: rest => x + Qsum rest
  end.

(** [xs.mean()], the sum over the count. *)
Definition mean (l : list Q) : Q := Qsum l / inject_Z (Z.of_nat (length l)).

Definition Qleb (a b : Q) : bool := Qle_bool a b.
Definition Qltb (a b : Q) : bool := negb (Qle_bool b a).
Definition Qeqb (a b : Q) : bool := Qeq_bool a b.

Definition Qmax3 (a b c : Q) : Q := Qmax (Qmax a b) c.

End Py.

Import Py.

Notation "x <- m ;; k" := (bind m (fun x => k))
  (at level 61, m at next level, right associativity).

(** ** pandas: a price table and the series operations the adapter uses *)

Module Pandas.

(** A cell of a float column; [None] is NaN. *)
Definition cell : Type := option Q.

(** Arithmetic on floats read from a table: NaN propagates. *)
Definition cell_lift2 (f : Q -> Q -> Q) (a b : cell) : cell :=
  match a, b with
  | Some x, Some y => Some (f x y)
  | _, _ => None
  end.

Definition cell_add : cell -> cell -> cell := cell_lift2 Qplus.
Definition cell_sub : cell -> cell -> cell := cell_lift2 Qminus.
Definition cell_mul : cell -> cell -> cell := cell_lift2 Qmult.
Definition cell_div : cell -> cell -> cell := cell_lift2 Qdiv.

(** A [DataFrame]: the row labels and the named columns, every column as
    long as the index. *)
Record DataFrame : Type := mkDataFrame {
  index : list string;
  columns : dict (list cell)
}.

Definition well_formed (df : DataFrame) : Prop :=
  Forall (fun c => length (snd c) = length (index df)) (columns df).

(** [name in df.columns] and [df[name]]. *)
Definition has_column (df : DataFrame) (name : string) : bool :=
  dict_mem name (columns df).

Definition column (df : DataFrame) (name : string) : option (list cell) :=
  dict_get name (columns df).

(** [series.iloc[-1]]. *)
Definition iloc_last (s : list cell) : result cell :=
  match s with
  | [] => Raise IndexError
  | c :: rest => Ok (last rest c)
  end.

Fixpoint position (label : string) (idx : list string) : option nat :=
  match idx with
  | [] => None
  | l :: rest =>
      if String.eqb label l then Some 0%nat
      else option_map S (position label rest)
  end.

(** [df.loc[row, col]]. *)
Definition loc (df : DataFrame) (row col : string) : result cell :=
  match column df col with
  | None => Raise (KeyError col)
  | Some s =>
      match position row (index df) with
      | None => Raise (KeyError row)
      | Some i => Ok (nth i s None)
      end
  end.

(** A series without NaN: the row positions it keeps, with their values. *)
Definition series : Type := list (nat * Q).

Fixpoint dropna_from (i : nat) (s : list cell) : series :=
  match s with
  | [] => []
  | Some v :: rest => (i, v) :: dropna_from (S i) rest
  | None :: rest => dropna_from (S i) rest
  end.

(** [column.dropna()]. *)
Definition dropna (s : list cell) : series := dropna_from 0 s.

(** [prices.pct_change().dropna()] on a series without NaN: the first row
    has no predecessor and is dropped; so is a row whose change is 0/0.
    A zero price followed by a non-zero one gives an infinite change in
    pandas, which the rationals do not have: the row is kept, its value is
    not meaningful. *)
Fixpoint pct_change_from (prev : Q) (s : series) : series :=
  match s with
  | [] => []
  | (i, v) :: rest =>
      (if Qeqb prev 0 && Qeqb v 0 then [] else [(i, v / prev - 1)])
        ++ pct_change_from v rest
  end.

Definition pct_change_dropna (s : series) : series :=
  match s with
  | [] => []
  | (_, v0) :: rest => pct_change_from v0 rest
  end.

Definition series_get (i : nat) (s : series) : cell :=
  match find (fun iv => Nat.eqb (fst iv) i) s with
  | Some (_, v) => Some v
  | None => None
  end.

Definition series_bound (s : series) : nat :=
  fold_right (fun iv b => Nat.max (S (fst iv)) b) 0%nat s.

(** [pd.DataFrame(data)] for a dict of series: the rows are the union of
    the series' positions in increasing order, a series without a value
    at a row has NaN there. *)
Definition frame_rows (data : dict series) : list nat :=
  let bound := fold_right (fun c b => Nat.max (series_bound (snd c)) b) 0%nat data in
  filter (fun i => existsb (fun c => match series_get i (snd c) with
                                      | Some _ => true
                                      | None => false
                                      end) data)
         (seq 0 bound).

Definition frame_of_series (data : dict series) : list (dict cell) :=
  map (fun i => map (fun c => (fst c, series_get i (snd c))) data)
      (frame_rows data).

(** [df.tail(n)]: the last [n] rows, none for [n = 0], and for a negative
    [n] all rows but the first [-n]. *)
Definition tail {A : Type} (n : Z) (l : list A) : list A :=
  if (n =? 0)%Z then []
  else if (0 <? n)%Z then skipn (length l - Z.to_nat n) l
  else skipn (Z.to_nat (- n)) l.

(** One row of [(df[common] * weight_vec[common]).sum(axis=1)]: NaN cells
    are skipped. *)
Definition weighted_row_sum (common : list string) (weights : dict Q)
    (row : dict cell) : Q :=
  Qsum (map (fun c =>
               match dict_get c row, dict_get c weights with
               | Some (Some r), Some w => r * w
               | _, _ => 0
               end) common).

End Pandas.

(** ** numpy: sorting and the linear-interpolation percentile *)

Module Numpy.

Module QOrder <: TotalLeBool.
Definition t : Type := Q.
Definition leb : t -> t -> bool := Qle_bool.
Theorem leb_total : forall a1 a2, leb a1 a2 = true \/ leb a2 a1 = true.
Proof.
  intros a1 a2. unfold leb. rewrite !Qle_bool_iff.
  destruct (Qlt_le_dec a1 a2) as [H | H]; [left; apply Qlt_le_weak, H | right; exact H].
Qed.
End QOrder.

Module QSort := Sort QOrder.

Definition sort (a : list Q) : list Q := QSort.sort a.

(** Linear interpolation at the virtual index [h] of a sorted sample:
    between the order statistic below [h] and the next one (the last one
    at the upper end). *)
Definition interpolate (s : list Q) (h : Q) : Q :=
  let lo := Qfloor h in
  let i := Z.to_nat lo in
  let j := Nat.min (i + 1) (length s - 1) in
  let g := h - inject_Z lo in
  nth i s 0 + (nth j s 0 - nth i s 0) * g.

Definition virtual_index (n : nat) (q : Q) : Q :=
  inject_Z (Z.of_nat (n - 1)) * (q / 100).

(** [np.percentile(a, q)] with the default method.  [q] outside
    [0, 100] raises [ValueError]; an empty sample has no percentile. *)
Definition percentile (a : list Q) (q : Q) : result Q :=
  if Qltb q 0 || Qltb 100 q then Raise (ValueError (PercentileOutOfRange q))
  else
    match a with
    | [] => Raise IndexError
    | _ :: _ =>
        let s := sort a in
        Ok (interpolate s (virtual_index (length s) q))
    end.

End Numpy.

(** A calendar date; only carried around. *)
Definition date : Type := Z.

(** ** src/core/domain/portfolio.py *)

Module Portfolio.

Definition WEIGHT_SUM_TOLERANCE : Q := 1e-6.

Record PortfolioMetadata : Type := mkMetadata {
  strategy_name : string;
  rebalance_id : string;
  benchmark : option string;
  created_at : option date
}.

Definition default_metadata : PortfolioMetadata :=
  mkMetadata "" "" None None.

Record t : Type := mk {
  positions : dict Q;
  weights : dict Q;
  nav : Q;
  as_of_date : date;
  metadata : PortfolioMetadata
}.

Definition _validate_invariants (self : t) : result unit :=
  let position_symbols := keys (positions self) in
  let weight_symbols := keys (weights self) in
  if negb (set_eqb position_symbols weight_symbols) then
    Raise (ValueError (SymbolsMismatch
                         (set_diff position_symbols weight_symbols)
                         (set_diff weight_symbols position_symbols)))
  else
    let weight_sum := Qsum (values (weights self)) in
    let is_valid_sum :=
      Qltb (Qabs (weight_sum - 1)) WEIGHT_SUM_TOLERANCE
      || Qltb (Qabs weight_sum) WEIGHT_SUM_TOLERANCE in
    if negb is_valid_sum then Raise (ValueError (WeightSum weight_sum))
    else if Qltb (nav self) 0 then Raise (ValueError (NegativeNav (nav self)))
    else Ok tt.

(** The dataclass constructor: [__post_init__] validates, so an instance
    exists only if validation passed. *)
Definition make (positions weights : dict Q) (nav : Q) (as_of_date : date)
    (metadata : PortfolioMetadata) : result t :=
  let self := mk positions weights nav as_of_date metadata in
  _ <- _validate_invariants self ;; Ok self.

Definition symbols (self : t) : list string := keys (positions self).

End Portfolio.

(** ** src/core/domain/stress_scenario.py *)

Module StressScenario.

Definition MAX_SHOCK_MAGNITUDE : Q := 5.

Record t : Type := mk {
  name : string;
  shocks : dict Q;
  description : string;
  date_calibrated : date
}.

Definition is_space (c : ascii) : bool :=
  let n := nat_of_ascii c in
  ((9 <=? n) && (n <=? 13) || (28 <=? n) && (n <=? 32))%nat.

(** [s.strip()] is empty exactly when every character is white space. *)
Fixpoint all_space (s : string) : bool :=
  match s with
  | EmptyString => true
  | String c rest => is_space c && all_space rest
  end.

Definition _validate_invariants (self : t) : result unit :=
  if all_space (name self) then Raise (ValueError EmptyScenarioName)
  else
    match shocks self with
    | [] => Raise (ValueError (NoShocks (name self)))
    | _ :: _ =>
        let extreme_shocks :=
          filter (fun fs => Qltb MAX_SHOCK_MAGNITUDE (Qabs (snd fs)))
                 (shocks self) in
        match extreme_shocks with
        | [] => Ok tt
        | _ :: _ => Raise (ValueError (ExtremeShocks (name self) extreme_shocks))
        end
    end.

Definition make (name : string) (shocks : dict Q) (description : string)
    (date_calibrated : date) : result t :=
  let self := mk name shocks description date_calibrated in
  _ <- _validate_invariants self ;; Ok self.

End StressScenario.

(** ** src/core/domain/risk_metrics.py *)

Module RiskMetrics.

Record Greeks : Type := mkGreeks {
  delta : option Q;
  gamma : option Q;
  vega : option Q;
  theta : option Q;
  rho : option Q;
  duration : option Q;
  convexity : option Q
}.

Definition no_greeks : Greeks := mkGreeks None None None None None None None.

Record Metadata : Type := mkMetadata {
  methods : list string;
  confidence_levels : list Q;
  window_days : Z;
  market_data_version : string
}.

Record t : Type := mk {
  var : dict Q;
  cvar : dict Q;
  greeks : Greeks;
  as_of_date : date;
  portfolio_id : string;
  calculation_metadata : option Metadata
}.

(** The tolerance of the second invariant, scaled to the two values. *)
Definition tolerance (var_val cvar_val : Q) : Q :=
  1e-6 * Qmax3 (Qabs var_val) (Qabs cvar_val) 1.

Definition check_level (self : t) (level : string) (_ : unit) : result unit :=
  match dict_get level (var self), dict_get level (cvar self) with
  | Some var_val, Some cvar_val =>
      if Qltb (var_val + tolerance var_val cvar_val) cvar_val then
        Raise (ValueError (CVaRAboveVaR level var_val cvar_val))
      else Ok tt
  | None, _ => Raise (KeyError level)
  | _, None => Raise (KeyError level)
  end.

Definition _validate_invariants (self : t) : result unit :=
  let var_levels := keys (var self) in
  let cvar_levels := keys (cvar self) in
  if negb (set_eqb var_levels cvar_levels) then
    Raise (ValueError (LevelsMismatch var_levels cvar_levels))
  else for_each var_levels (check_level self) tt.

Definition make (var cvar : dict Q) (greeks : Greeks) (as_of_date : date)
    (portfolio_id : string) (calculation_metadata : option Metadata)
    : result t :=
  let self := mk var cvar greeks as_of_date portfolio_id calculation_metadata in
  _ <- _validate_invariants self ;; Ok self.

End RiskMetrics.

Import Pandas.

(** ** src/core/ports/risk_port.py: the interface of a risk engine *)

Module RiskPort.

(** The [var_params] dictionary of [calculate_cvar]; each key may be absent. *)
Record VarParams : Type := mkVarParams {
  vp_method : option string;
  vp_confidence_levels : option (list Q);
  vp_window_days : option Z
}.

(** A row of the frame [stress_test] returns.  The three computed fields
    are null in an error row, and [error] holds the exception whose text
    the row records. *)
Record StressRow : Type := mkStressRow {
  scenario : string;
  base_npv : cell;
  stressed_npv : cell;
  pnl : cell;
  pct_change : cell;
  error : option exn
}.

Record t : Type := mk {
  calculate_var :
    Portfolio.t -> DataFrame -> string -> option (list Q) -> Z -> result (dict Q);
  calculate_cvar :
    Portfolio.t -> DataFrame -> option VarParams -> result (dict Q);
  compute_greeks :
    Portfolio.t -> DataFrame -> result RiskMetrics.Greeks;
  stress_test :
    Portfolio.t -> DataFrame -> list StressScenario.t -> result (list StressRow);
  value_portfolio :
    Portfolio.t -> DataFrame -> result cell
}.

End RiskPort.

(** ** src/adapters/ore_adapter.py *)

Module OREAdapter.

Import RiskPort.

Section Adapter.

(** [scipy.stats.norm.ppf] and [pandas.Series.std]. *)
Variable norm_ppf : Q -> Q.
Variable series_std : list Q -> Q.

Definition latest_price (market_data : DataFrame) (symbol : string)
    : result cell :=
  match column market_data symbol with
  | Some s => iloc_last s
  | None => Raise (KeyError symbol)
  end.

Definition value_portfolio (portfolio : Portfolio.t) (market_data : DataFrame)
    : result cell :=
  for_each (Portfolio.positions portfolio)
    (fun sp total_value =>
       let symbol := fst sp in
       let position := snd sp in
       price <-
         (if negb (has_column market_data symbol) then
            if str_mem symbol (index market_data) then
              loc market_data symbol "close"
            else
              Raise (PricingError symbol
                       ("No market data available for " ++ symbol)%string)
          else latest_price market_data symbol) ;;
       Ok (cell_add total_value (cell_mul (Some position) price)))
    (Some 0).

Definition _calculate_portfolio_returns (portfolio : Portfolio.t)
    (market_data : DataFrame) (window_days : Z) : list Q :=
  let weights := Portfolio.weights portfolio in
  let returns_data : dict series :=
    fold_left
      (fun acc symbol =>
         match column market_data symbol with
         | Some col =>
             let prices := dropna col in
             if (1 <? length prices)%nat then
               dict_set symbol (pct_change_dropna prices) acc
             else acc
         | None => acc
         end)
      (keys weights) [] in
  match returns_data with
  | [] => []
  | _ :: _ =>
      let returns_df := tail window_days (frame_of_series returns_data) in
      let common := filter (fun c => dict_mem c weights) (keys returns_data) in
      match common with
      | [] => []
      | _ :: _ => map (weighted_row_sum common weights) returns_df
      end
  end.

(** [f"{int(level * 100)}%"]. *)
Definition label (level : Q) : string :=
  (str_of_int (int_of_float (level * 100)) ++ "%")%string.

Definition default_levels : list Q := [0.95; 0.99].

Definition check_confidence (level : Q) (_ : unit) : result unit :=
  if Qltb 0 level && Qltb level 1 then Ok tt
  else Raise (ValueError (ConfidenceOutOfRange level)).

Definition historical_step (portfolio_returns : list Q) (nav : Q) (level : Q)
    (result : dict Q) : Py.result (dict Q) :=
  var_value <- Numpy.percentile portfolio_returns ((1 - level) * 100) ;;
  Ok (dict_set (label level) (var_value * nav) result).

Definition parametric_step (mean_return std_return nav : Q) (level : Q)
    (result : dict Q) : Py.result (dict Q) :=
  let z_score := norm_ppf (1 - level) in
  let var_value := mean_return + z_score * std_return in
  Ok (dict_set (label level) (var_value * nav) result).

Definition calculate_var (portfolio : Portfolio.t) (market_data : DataFrame)
    (method : string) (confidence_levels : option (list Q)) (window_days : Z)
    : result (dict Q) :=
  let confidence_levels :=
    match confidence_levels with
    | None => default_levels
    | Some l => l
    end in
  _ <- for_each confidence_levels check_confidence tt ;;
  let portfolio_returns :=
    _calculate_portfolio_returns portfolio market_data window_days in
  if (Z.of_nat (length portfolio_returns) <? window_days)%Z then
    Raise (InsufficientDataError window_days
             (Z.of_nat (length portfolio_returns)))
  else if String.eqb method "historical" then
    for_each confidence_levels
      (historical_step portfolio_returns (Portfolio.nav portfolio)) []
  else if String.eqb method "parametric" then
    let mean_return := mean portfolio_returns in
    let std_return := series_std portfolio_returns in
    for_each confidence_levels
      (parametric_step mean_return std_return (Portfolio.nav portfolio)) []
  else Raise (ValueError (UnknownVaRMethod method)).

Definition tail_returns (portfolio_returns : list Q) (var_threshold : Q)
    : list Q :=
  filter (fun r => Qleb r var_threshold) portfolio_returns.

(** [tail_returns.mean() if len(tail_returns) > 0 else var_threshold]. *)
Definition cvar_value (tail_returns : list Q) (var_threshold : Q) : Q :=
  if (0 <? length tail_returns)%nat then mean tail_returns
  else var_threshold.

Definition cvar_step (portfolio_returns : list Q) (nav : Q) (level : Q)
    (result : dict Q) : Py.result (dict Q) :=
  var_threshold <- Numpy.percentile portfolio_returns ((1 - level) * 100) ;;
  let tail_returns := tail_returns portfolio_returns var_threshold in
  let cvar_value := cvar_value tail_returns var_threshold in
  Ok (dict_set (label level) (cvar_value * nav) result).

Definition calculate_cvar (portfolio : Portfolio.t) (market_data : DataFrame)
    (var_params : option VarParams) : result (dict Q) :=
  let params :=
    match var_params with
    | Some p => p
    | None => mkVarParams None None None
    end in
  let method :=
    match vp_method params with Some m => m | None => "historical" end in
  let confidence_levels :=
    match vp_confidence_levels params with
    | Some l => l
    | None => default_levels
    end in
  let window_days :=
    match vp_window_days params with Some w => w | None => 250%Z end in
  let portfolio_returns :=
    _calculate_portfolio_returns portfolio market_data window_days in
  if (Z.of_nat (length portfolio_returns) <? window_days)%Z then
    Raise (InsufficientDataError window_days
             (Z.of_nat (length portfolio_returns)))
  else
    for_each confidence_levels
      (cvar_step portfolio_returns (Portfolio.nav portfolio)) [].

Definition compute_greeks (portfolio : Portfolio.t) (market_data : DataFrame)
    : result RiskMetrics.Greeks :=
  let total_delta := fold_left (fun acc sw => acc + snd sw)
                               (Portfolio.weights portfolio) 0 in
  Ok (RiskMetrics.mkGreeks (Some total_delta) (Some 0) (Some 0)
                           None None None None).

Definition _calculate_npv (portfolio : Portfolio.t) (market_data : DataFrame)
    : result cell :=
  for_each (Portfolio.positions portfolio)
    (fun sp npv =>
       let symbol := fst sp in
       let position := snd sp in
       if has_column market_data symbol then
         price <- latest_price market_data symbol ;;
         Ok (cell_add npv (cell_mul (Some position) price))
       else Ok npv)
    (Some 0).

Definition scale_column (factor : Q) (col : list cell) : list cell :=
  map (fun c => cell_mul c (Some factor)) col.

Definition scale_named (name : string) (factor : Q) (df : DataFrame)
    : DataFrame :=
  mkDataFrame (index df)
    (map (fun c => if String.eqb (fst c) name
                   then (fst c, scale_column factor (snd c)) else c)
         (columns df)).

Definition scale_all (factor : Q) (df : DataFrame) : DataFrame :=
  mkDataFrame (index df)
    (map (fun c => (fst c, scale_column factor (snd c))) (columns df)).

Definition _apply_shocks (market_data : DataFrame)
    (scenario : StressScenario.t) : DataFrame :=
  fold_left
    (fun stressed rs =>
       let risk_factor := fst rs in
       let shock := snd rs in
       if has_column stressed risk_factor then
         scale_named risk_factor (1 + shock) stressed
       else if String.eqb risk_factor "equity_all" then
         scale_all (1 + shock) stressed
       else stressed)
    (StressScenario.shocks scenario) market_data.

Definition stress_row (portfolio : Portfolio.t) (market_data : DataFrame)
    (base_npv : cell) (scenario : StressScenario.t) : StressRow :=
  let stressed_data := _apply_shocks market_data scenario in
  match _calculate_npv portfolio stressed_data with
  | Ok stressed_npv =>
      let pnl := cell_sub stressed_npv base_npv in
      let pct_change :=
        match base_npv with
        | Some b => if Qeqb b 0 then Some 0 else cell_div pnl base_npv
        | None => cell_div pnl base_npv
        end in
      mkStressRow (StressScenario.name scenario) base_npv stressed_npv
                  pnl pct_change None
  | Raise e =>
      mkStressRow (StressScenario.name scenario) base_npv None None None
                  (Some e)
  end.

Definition stress_test (portfolio : Portfolio.t) (market_data : DataFrame)
    (scenarios : list StressScenario.t) : result (list StressRow) :=
  base_npv <- _calculate_npv portfolio market_data ;;
  Ok (map (stress_row portfolio market_data base_npv) scenarios).

Definition adapter : RiskPort.t :=
  RiskPort.mk calculate_var calculate_cvar compute_greeks stress_test
              value_portfolio.

End Adapter.

End OREAdapter.

(** ** src/core/services/risk_calculation_service.py *)

Module RiskCalculationService.

Record RiskCalculationRequest : Type := mkRequest {
  portfolio : Portfolio.t;
  market_data_version : string;
  methods : option (list string);
  confidence_levels : option (list Q);
  window_days : Z;
  compute_greeks : bool;
  generate_report : bool;
  output_dir : string
}.

Inductive warning : Type :=
| GreeksFailed (e : exn).

Record RiskCalculationResponse : Type := mkResponse {
  metrics : RiskMetrics.t;
  report_path : option string;
  warnings : list warning
}.

Section Service.

Variable risk_port : RiskPort.t.

(** [_load_market_data] reads every symbol through the data port and
    aligns the series into one table; the table it yields (or the
    exception it raises) is taken as given. *)
Variable _load_market_data : RiskCalculationRequest -> result DataFrame.

(** The report port with [_generate_risk_report], [None] when the service
    was built without one. *)
Variable report_port : option (RiskMetrics.t -> string -> result string).

(** [xs or default] on an optional list. *)
Definition or_default {A : Type} (xs : option (list A)) (default : list A)
    : list A :=
  match xs with
  | None | Some [] => default
  | Some l => l
  end.

(** [var_results[f"{method}_{level}"] = value] for every item. *)
Definition merge_prefixed (method : string) (method_var var_results : dict Q)
    : dict Q :=
  fold_left
    (fun acc lv => dict_set (method ++ "_" ++ fst lv)%string (snd lv) acc)
    method_var var_results.

Definition var_step (request : RiskCalculationRequest)
    (market_data : DataFrame) (methods : list string)
    (confidence_levels : list Q) (method : string) (var_results : dict Q)
    : result (dict Q) :=
  method_var <- RiskPort.calculate_var risk_port (portfolio request)
                  market_data method (Some confidence_levels)
                  (window_days request) ;;
  if (1 <? length methods)%nat then
    Ok (merge_prefixed method method_var var_results)
  else Ok method_var.

Definition calculate (request : RiskCalculationRequest)
    : result RiskCalculationResponse :=
  let methods := or_default (methods request) ["historical"] in
  let confidence_levels :=
    or_default (confidence_levels request) [0.95; 0.99] in
  market_data <- _load_market_data request ;;
  var_results <-
    for_each methods
      (var_step request market_data methods confidence_levels) [] ;;
  cvar_results <-
    RiskPort.calculate_cvar risk_port (portfolio request) market_data
      (Some (RiskPort.mkVarParams (Some (hd "historical" methods))
                                  (Some confidence_levels)
                                  (Some (window_days request)))) ;;
  let '(greeks, warnings) :=
    if compute_greeks request then
      match RiskPort.compute_greeks risk_port (portfolio request)
                                    market_data with
      | Ok g => (g, [])
      | Raise e => (RiskMetrics.no_greeks, [GreeksFailed e])
      end
    else (RiskMetrics.no_greeks, []) in
  let strategy_name :=
    Portfolio.strategy_name (Portfolio.metadata (portfolio request)) in
  metrics <-
    RiskMetrics.make var_results cvar_results greeks
      (Portfolio.as_of_date (portfolio request))
      (if String.eqb strategy_name "" then "unknown" else strategy_name)
      (Some (RiskMetrics.mkMetadata methods confidence_levels
               (window_days request) (market_data_version request))) ;;
  report_path <-
    match generate_report request, report_port with
    | true, Some _generate_risk_report =>
        path <- _generate_risk_report metrics (output_dir request) ;;
        Ok (Some path)
    | _, _ => Ok None
    end ;;
  Ok (mkResponse metrics report_path warnings).

End Service.

End RiskCalculationService.

(** ** src/core/services/stress_testing_service.py *)

Module StressTestingService.

Import RiskPort.

Record StressTestRequest : Type := mkRequest {
  portfolio : Portfolio.t;
  scenarios : list StressScenario.t;
  market_data : DataFrame;
  validate_linearity : bool;
  generate_report : bool;
  output_dir : string
}.

Record StressTestResult : Type := mkResult {
  scenario_name : string;
  result_base_npv : cell;
  result_stressed_npv : cell;
  result_pnl : cell;
  result_pct_change : cell;
  shocks_applied : dict Q
}.

Inductive warning : Type :=
| NoResults (scenario_name : string)
| LinearityRatio (ratio : cell)
| LinearityFailed (e : exn).

Record StressTestResponse : Type := mkResponse {
  results : list StressTestResult;
  comparison_df : list StressTestResult;
  report_path : option string;
  linearity_validated : option bool;
  warnings : list warning
}.

(** Comparisons on floats that may be NaN: false as soon as one side is. *)
Definition cell_abs (a : cell) : cell := option_map Qabs a.

Definition cell_ltb (a : cell) (b : Q) : bool :=
  match a with Some x => Qltb x b | None => false end.

Definition cell_leb (a : cell) (b : Q) : bool :=
  match a with Some x => Qleb x b | None => false end.

Section Service.

Variable risk_port : RiskPort.t.

(** [date.today()]. *)
Variable today : date.

(** [stress_df[stress_df["scenario"] == name]]. *)
Definition rows_named (name : string) (stress_df : list StressRow)
    : list StressRow :=
  filter (fun r => String.eqb (scenario r) name) stress_df.

(** The warnings list is passed in and returned: the source appends to
    the caller's list. *)
Definition _validate_linearity (portfolio : Portfolio.t)
    (market_data : DataFrame) (scenarios : list StressScenario.t)
    (warnings : list warning) : result (bool * list warning) :=
  scenario_10 <- StressScenario.make "Linearity_10pct" [("SPX", -0.10)]
                   "10% shock for linearity test" today ;;
  scenario_20 <- StressScenario.make "Linearity_20pct" [("SPX", -0.20)]
                   "20% shock for linearity test" today ;;
  match RiskPort.stress_test risk_port portfolio market_data
          [scenario_10; scenario_20] with
  | Raise e => Ok (true, warnings ++ [LinearityFailed e])
  | Ok stress_df =>
      match rows_named "Linearity_10pct" stress_df,
            rows_named "Linearity_20pct" stress_df with
      | row_10 :: _, row_20 :: _ =>
          let pnl_10 := cell_abs (pnl row_10) in
          let pnl_20 := cell_abs (pnl row_20) in
          if cell_ltb pnl_10 1e-6 then Ok (true, warnings)
          else
            let ratio := cell_div pnl_20 pnl_10 in
            let tolerance := 0.05 in
            let is_linear :=
              cell_leb (cell_abs (cell_sub ratio (Some 2.0)))
                       (tolerance * 2.0) in
            if is_linear then Ok (true, warnings)
            else Ok (false, warnings ++ [LinearityRatio ratio])
      | _, _ => Ok (true, warnings)
      end
  end.

Definition collect_results (base_npv : cell) (stress_df : list StressRow)
    (scenarios : list StressScenario.t)
    : list StressTestResult * list warning :=
  fold_left
    (fun acc scenario =>
       match rows_named (StressScenario.name scenario) stress_df with
       | [] => (fst acc, snd acc ++ [NoResults (StressScenario.name scenario)])
       | row :: _ =>
           (fst acc ++ [mkResult (StressScenario.name scenario) base_npv
                                 (stressed_npv row) (pnl row) (pct_change row)
                                 (StressScenario.shocks scenario)],
            snd acc)
       end)
    scenarios ([], []).

(** [_generate_report] writes the comparison page and returns its path. *)
Variable _generate_report :
  list StressTestResult -> string -> result string.

Definition run (request : StressTestRequest) : result StressTestResponse :=
  match scenarios request with
  | [] => Raise (ValueError NoScenario)
  | _ :: _ =>
      base_npv <- RiskPort.value_portfolio risk_port (portfolio request)
                    (market_data request) ;;
      stress_df <- RiskPort.stress_test risk_port (portfolio request)
                     (market_data request) (scenarios request) ;;
      let '(results, warnings) :=
        collect_results base_npv stress_df (scenarios request) in
      linearity <-
        (if validate_linearity request then
           bw <- _validate_linearity (portfolio request)
                   (market_data request) (scenarios request) warnings ;;
           Ok (Some (fst bw), snd bw)
         else Ok (None, warnings)) ;;
      report_path <-
        (if generate_report request then
           path <- _generate_report results (output_dir request) ;;
           Ok (Some path)
         else Ok None) ;;
      Ok (mkResponse results results report_path (fst linearity)
                     (snd linearity))
  end.

End Service.

End StressTestingService.

(** ** scripts/var_backtest.py: the statistics of a finished backtest *)

Module VarBacktest.

Record KupiecTest : Type := mkKupiec {
  lr_statistic : cell;
  critical_value_95 : Q;
  critical_value_99 : Q;
  reject_at_95 : option bool;
  model_valid_95 : option bool
}.

Record IndependenceTest : Type := mkIndependence {
  n00 : nat;
  n01 : nat;
  n10 : nat;
  n11 : nat
}.

Section Statistics.

(** [numpy.log]. *)
Variable np_log : Q -> Q.

(** The Kupiec block, from the number [x] of breaches among [n] test
    days.  [lr_pof] is NaN ([None]) outside [0 < x < n]. *)
Definition kupiec_test (x n : Z) (confidence_level : Q) : KupiecTest :=
  let x_q := inject_Z x in
  let n_q := inject_Z n in
  let expected_breach_rate := 1 - confidence_level in
  let p := expected_breach_rate in
  let lr_pof : cell :=
    if ((0 <? x) && (x <? n))%Z then
      Some (-2 * (x_q * np_log (p / (x_q / n_q))
                  + (n_q - x_q) * np_log ((1 - p) / (1 - x_q / n_q))))
    else None in
  mkKupiec lr_pof 3.84 6.63
    (match lr_pof with
     | Some lr => Some (Qltb 3.84 lr)
     | None => None
     end)
    (match lr_pof with
     | Some lr => Some (Qleb lr 3.84)
     | None => None
     end).

(** The transition counts between consecutive test days. *)
Fixpoint transitions (prev : bool) (breaches : list bool)
    (acc : IndependenceTest) : IndependenceTest :=
  match breaches with
  | [] => acc
  | cur :: rest =>
      transitions cur rest
        (match prev, cur with
         | false, false => mkIndependence (S (n00 acc)) (n01 acc) (n10 acc) (n11 acc)
         | false, true => mkIndependence (n00 acc) (S (n01 acc)) (n10 acc) (n11 acc)
         | true, false => mkIndependence (n00 acc) (n01 acc) (S (n10 acc)) (n11 acc)
         | true, true => mkIndependence (n00 acc) (n01 acc) (n10 acc) (S (n11 acc))
         end)
  end.

Definition independence_test (breaches : list bool) : IndependenceTest :=
  match breaches with
  | [] => mkIndependence 0 0 0 0
  | b :: rest => transitions b rest (mkIndependence 0 0 0 0)
  end.

(** [n = len(results_df)], [x = results_df["breached"].sum()]. *)
Definition backtest_statistics (breached : list bool) (confidence_level : Q)
    : KupiecTest * IndependenceTest :=
  let n := Z.of_nat (length breached) in
  let x := Z.of_nat (length (filter (fun b => b) breached)) in
  (kupiec_test x n confidence_level, independence_test breached).

End Statistics.

End VarBacktest.

(** ** IEEE doubles, for the percentages of the labels

    The labels are the one place of the model where rounding could show:
    [int(level * 100)] truncates a rounded product.  The percentages of
    the levels the specification names are therefore also computed on
    binary64 floats. *)

Module Double.

Definition int_of_double (f : PrimFloat.float) : option Z :=
  match FloatOps.Prim2SF f with
  | SpecFloat.S754_zero _ => Some 0%Z
  | SpecFloat.S754_finite s m e =>
      let a := if (0 <=? e)%Z then (Z.pos m * 2 ^ e)%Z
               else (Z.pos m / 2 ^ (- e))%Z in
      Some (if s then (- a)%Z else a)
  | _ => None
  end.

(** [int(level * 100)] on doubles. *)
Definition percent (level : PrimFloat.float) : option Z :=
  int_of_double (PrimFloat.mul level 100%float).

End Double.

(** ** Vocabulary of the specification *)

Module Spec.

(** Two lists of keys denote the same set. *)
Definition same_set (a b : list string) : Prop :=
  forall s, In s a <-> In s b.

(** The three invariants of a portfolio. *)
Definition portfolio_valid (positions weights : dict Q) (nav : Q) : Prop :=
  same_set (keys positions) (keys weights)
  /\ (Qabs (Qsum (values weights) - 1) < 1e-6
      \/ Qabs (Qsum (values weights)) < 1e-6)
  /\ 0 <= nav.

(** The two invariants of a set of risk metrics. *)
Definition risk_metrics_valid (var cvar : dict Q) : Prop :=
  same_set (keys var) (keys cvar)
  /\ forall level var_val cvar_val,
       dict_get level var = Some var_val ->
       dict_get level cvar = Some cvar_val ->
       cvar_val <= var_val + 1e-6 * Qmax (Qmax (Qabs var_val) (Qabs cvar_val)) 1.




(** A symbol has no market-data entry: it names neither a column nor a
    row of the table. *)
Definition no_entry (market_data : DataFrame) (symbol : string) : Prop :=
  has_column market_data symbol = false
  /\ str_mem symbol (index market_data) = false.

(** The specification's reading of [stress_test] on a portfolio with a
    symbol that has no market-data entry: the batch is returned and each
    row records the failure, with a null P&L and an error. *)
Definition missing_symbol_downgraded (portfolio : Portfolio.t)
    (market_data : DataFrame) (scenarios : list StressScenario.t) : Prop :=
  (exists symbol,
     In symbol (keys (Portfolio.positions portfolio))
     /\ no_entry market_data symbol) ->
  exists rows,
    OREAdapter.stress_test portfolio market_data scenarios = Ok rows
    /\ Forall (fun row => RiskPort.pnl row = None
                          /\ RiskPort.error row <> None) rows.

(** Every column of the table has a last row. *)
Definition has_rows (df : DataFrame) : Prop :=
  Forall (fun c => snd c <> []) (columns df).




(** A string contains an underscore. *)
Fixpoint has_underscore (s : string) : bool :=
  match s with
  | EmptyString => false
  | String c rest => Ascii.eqb c "_" || has_underscore rest
  end.


End Spec.

Import Spec.

(** ** Sample inputs *)

Module Sample.

(** Stand-ins for the two library functions: an increasing map for the
    normal quantile and a constant deviation. *)
Definition ppf (p : Q) : Q := 4 * p - 2.
Definition std (returns : list Q) : Q := 0.02.

(** Two symbols over four business days; MSFT has no quote on the second. *)
Definition prices : DataFrame :=
  mkDataFrame ["2024-01-01"; "2024-01-02"; "2024-01-03"; "2024-01-04"]
    [("AAPL", [Some 100; Some 110; Some 99; Some 99]);
     ("MSFT", [Some 50; None; Some 55; Some 44])].

Definition portfolio : Portfolio.t :=
  Portfolio.mk [("AAPL", 5); ("MSFT", 10)] [("AAPL", 0.5); ("MSFT", 0.5)]
               1000 0%Z Portfolio.default_metadata.

Definition levels : list Q := [0.95; 0.5].

(** One symbol whose price rises every day, by 10%, 20% and 30%. *)
Definition rising_prices : DataFrame :=
  mkDataFrame ["2024-01-01"; "2024-01-02"; "2024-01-03"; "2024-01-04"]
    [("AAPL", [Some 100; Some 110; Some 132; Some 171.6])].

(** A table that quotes AAPL only, for a portfolio that also holds MSFT. *)
Definition aapl_only : DataFrame :=
  mkDataFrame ["2024-01-01"; "2024-01-02"]
    [("AAPL", [Some 100; Some 100])].

Definition equity_down_10 : StressScenario.t :=
  StressScenario.mk "Equity -10%" [("equity_all", -0.10)]
                    "All equities down 10%" 0%Z.

(** A risk engine for a convex book of 1000: a shock [s] of SPX moves its
    value by [1000 (s - 0.75 s^2)]. *)
Definition convex_stress_row (scenario : StressScenario.t)
    : RiskPort.StressRow :=
  let s := match dict_get "SPX" (StressScenario.shocks scenario) with
           | Some s => s
           | None => 0
           end in
  let pnl := 1000 * (s - 0.75 * s * s) in
  RiskPort.mkStressRow (StressScenario.name scenario) (Some 1000)
    (Some (1000 + pnl)) (Some pnl) (Some (pnl / 1000)) None.

Definition convex_port : RiskPort.t :=
  RiskPort.mk (fun _ _ _ _ _ => Ok []) (fun _ _ _ => Ok [])
    (fun _ _ => Ok RiskMetrics.no_greeks)
    (fun _ _ scenarios => Ok (map convex_stress_row scenarios))
    (fun _ _ => Ok (Some 1000)).

(** A risk request for two VaR methods, with the default levels, on a
    table the data port has already loaded. *)
Definition two_method_request : RiskCalculationService.RiskCalculationRequest :=
  RiskCalculationService.mkRequest portfolio "v1"
    (Some ["historical"; "parametric"]) None 3 true false
    "artifacts/risk_reports".

Definition loaded_prices
    (request : RiskCalculationService.RiskCalculationRequest)
    : result DataFrame :=
  Ok prices.

Definition single_portfolio : Portfolio.t :=
  Portfolio.mk [("AAPL", 1)] [("AAPL", 1)] 100 0%Z
               Portfolio.default_metadata.

End Sample.

(** ** Further methods of the domain objects *)

(** The exceptions of [Portfolio.from_weights] beside those of the
    constructor: the [ValueError] for a symbol without a price and the
    [ZeroDivisionError] of a division by a zero price. *)
Module PyX.

Inductive exn_x : Type :=
| Known (e : exn)
| PriceNotFound (symbol : string)
| ZeroDivisionError.

Inductive outcome (A : Type) : Type :=
| Done (a : A)
| Failed (e : exn_x).

Arguments Done {A} a.
Arguments Failed {A} e.

Definition bind_x {A B : Type} (m : outcome A) (k : A -> outcome B)
    : outcome B :=
  match m with
  | Done a => k a
  | Failed e => Failed e
  end.

Definition lift {A : Type} (m : result A) : outcome A :=
  match m with
  | Ok a => Done a
  | Raise e => Failed (Known e)
  end.

Fixpoint for_each_x {A S : Type} (xs : list A) (body : A -> S -> outcome S)
    (s : S) : outcome S :=
  match xs with
  | [] => Done s
  | x :: rest => bind_x (body x s) (for_each_x rest body)
  end.

End PyX.

Import PyX.

(** src/core/domain/portfolio.py: the accessors and [from_weights]. *)
Module PortfolioMethods.

Definition num_positions (self : Portfolio.t) : nat :=
  length (Portfolio.positions self).

Definition is_empty (self : Portfolio.t) : bool :=
  Nat.eqb (length (Portfolio.positions self)) 0.

(** [self.positions.get(symbol, 0.0)]. *)
Definition get_position (self : Portfolio.t) (symbol : string) : Q :=
  match dict_get symbol (Portfolio.positions self) with
  | Some q => q
  | None => 0
  end.



Definition position_step (nav : Q) (prices : dict Q) (sw : string * Q)
    (positions : dict Q) : outcome (dict Q) :=
  let symbol := fst sw in
  let weight := snd sw in
  match dict_get symbol prices with
  | None => Failed (PriceNotFound symbol)
  | Some price =>
      let position_value := nav * weight in
      if Qeqb price 0 then Failed ZeroDivisionError
      else Done (dict_set symbol (position_value / price) positions)
  end.

Definition from_weights (weights : dict Q) (nav : Q) (prices : dict Q)
    (as_of_date : date) (metadata : option Portfolio.PortfolioMetadata)
    : outcome Portfolio.t :=
  bind_x (for_each_x weights (position_step nav prices) [])
    (fun positions =>
       lift (Portfolio.make positions weights nav as_of_date
               (match metadata with
                | Some m => m
                | None => Portfolio.default_metadata
                end))).

End PortfolioMethods.

(** src/core/domain/stress_scenario.py: the accessors. *)
Module StressScenarioMethods.


Definition risk_factors (self : StressScenario.t) : list string :=
  keys (StressScenario.shocks self).



End StressScenarioMethods.

(** src/core/domain/risk_metrics.py: the accessors and
    [create_with_var_only]. *)
Module RiskMetricsMethods.

Definition to_dict (g : RiskMetrics.Greeks) : dict (option Q) :=
  [("delta", RiskMetrics.delta g); ("gamma", RiskMetrics.gamma g);
   ("vega", RiskMetrics.vega g); ("theta", RiskMetrics.theta g);
   ("rho", RiskMetrics.rho g); ("duration", RiskMetrics.duration g);
   ("convexity", RiskMetrics.convexity g)].



Definition confidence_levels (self : RiskMetrics.t) : list string :=
  keys (RiskMetrics.var self).

(** [any(v is not None for v in greeks_dict.values())]. *)
Definition has_greeks (self : RiskMetrics.t) : bool :=
  existsb (fun v => match v with Some _ => true | None => false end)
          (values (to_dict (RiskMetrics.greeks self))).

Definition create_with_var_only (var cvar : dict Q) (as_of_date : date)
    (portfolio_id : string) : result RiskMetrics.t :=
  RiskMetrics.make var cvar RiskMetrics.no_greeks as_of_date portfolio_id None.

End RiskMetricsMethods.

(** ** scripts/var_backtest.py: the rolling loop and the exit code

    [lookback_days] is a natural number: a negative look-back, which
    Python would read as an index from the end of the table, is not
    modelled. *)

Module VarBacktestRun.

(** [df.iloc[a:b]] for [a <= b]. *)
Definition iloc_rows (a b : nat) (df : DataFrame) : DataFrame :=
  mkDataFrame (firstn (b - a) (skipn a (index df)))
    (map (fun c => (fst c, firstn (b - a) (skipn a (snd c)))) (columns df)).

(** [df.iloc[i]], the cells of row [i] in column order. *)
Definition iloc_row (i : nat) (df : DataFrame) : list cell :=
  map (fun c => nth i (snd c) None) (columns df).

(** [series.mean()] on cells: NaN is skipped, and the mean of no value is
    NaN. *)
Definition cell_mean (s : list cell) : cell :=
  match dropna s with
  | [] => None
  | _ :: _ => Some (mean (map snd (dropna s)))
  end.

Record DayResult : Type := mkDay {
  day : string;
  predicted_var : Q;
  actual_pnl : cell;
  breached : bool
}.

Record BacktestResult : Type := mkBacktest {
  total_days : nat;
  num_breaches : nat;
  kupiec_test : VarBacktest.KupiecTest;
  independence_test : VarBacktest.IndependenceTest;
  results : list DayResult
}.

Section Run.

Variable norm_ppf : Q -> Q.
Variable series_std : list Q -> Q.
Variable np_log : Q -> Q.

(** [test_date.date()], from a row label to a calendar date. *)
Variable date_of : string -> date.

(** [{s: 1 / len(symbols) for s in symbols}]. *)
Definition equal_weights (symbols : list string) : dict Q :=
  fold_left
    (fun weights s =>
       dict_set s (1 / inject_Z (Z.of_nat (length symbols))) weights)
    symbols [].

(** One pass of the loop body, for the test day at row [i]. *)
Definition backtest_day (market_data : DataFrame) (confidence_level : Q)
    (lookback_days : nat) (nav : Q) (i : nat) : result DayResult :=
  let symbols := keys (columns market_data) in
  let test_date := nth i (index market_data) "" in
  let weights := equal_weights symbols in
  let positions := map (fun sw => (fst sw, nav * snd sw)) weights in
  portfolio <- Portfolio.make positions weights nav (date_of test_date)
                 Portfolio.default_metadata ;;
  let historical_data := iloc_rows (i - lookback_days) i market_data in
  var_result <- OREAdapter.calculate_var norm_ppf series_std portfolio
                  historical_data "historical" (Some [confidence_level])
                  (Z.of_nat lookback_days) ;;
  let confidence_key := OREAdapter.label confidence_level in
  predicted_var <- match dict_get confidence_key var_result with
                   | Some v => Ok v
                   | None => Raise (KeyError confidence_key)
                   end ;;
  let today_prices := iloc_row i market_data in
  let tomorrow_prices := iloc_row (i + 1) market_data in
  let daily_returns :=
    map (fun tp => cell_sub (cell_div (fst tp) (snd tp)) (Some 1))
        (combine tomorrow_prices today_prices) in
  let portfolio_return := cell_mean daily_returns in
  let actual_pnl := cell_mul (Some nav) portfolio_return in
  let breached := match actual_pnl with
                  | Some pnl => Qltb pnl predicted_var
                  | None => false
                  end in
  Ok (mkDay test_date predicted_var actual_pnl breached).

Definition backtest_var_model (market_data : DataFrame)
    (confidence_level : Q) (lookback_days : nat) (nav : Q)
    : result BacktestResult :=
  let dates := index market_data in
  (* the banner prints dates[lookback_days] and dates[-2] *)
  _ <- (if (lookback_days <? length dates)%nat && (2 <=? length dates)%nat
        then Ok tt else Raise IndexError) ;;
  results <-
    for_each (seq lookback_days (length dates - 1 - lookback_days))
      (fun i results =>
         r <- backtest_day market_data confidence_level lookback_days nav i ;;
         Ok (results ++ [r]))
      [] ;;
  match results with
  | [] => Raise (KeyError "breached")
  | _ :: _ =>
      let flags := map breached results in
      let stats := VarBacktest.backtest_statistics np_log flags
                     confidence_level in
      Ok (mkBacktest (length results)
            (length (filter (fun b => b) flags))
            (fst stats) (snd stats) results)
  end.

(** What [main] returns once the report is printed. *)
Definition exit_code (backtest_result : BacktestResult) : Z :=
  match VarBacktest.model_valid_95 (kupiec_test backtest_result) with
  | Some true => 0%Z
  | _ => 1%Z
  end.

Definition main (market_data : DataFrame) (confidence : Q) (lookback : nat)
    (nav : Q) : result Z :=
  backtest_result <- backtest_var_model market_data confidence lookback nav ;;
  Ok (exit_code backtest_result).

End Run.

End VarBacktestRun.

(** src/core/domain/stress_scenario.py: the two scenarios the module
    builds when it is imported.  The dates are the ordinals of
    [date(2008, 9, 15)] and [date(2020, 3, 16)]. *)
Module PredefinedScenarios.

Definition SCENARIO_2008_CRISIS : result StressScenario.t :=
  StressScenario.make "2008 Financial Crisis"
    [("SPX", -0.40); ("VIX", 2.0); ("US10Y", -0.015); ("USDEUR", 0.10);
     ("CreditHY", 0.08)]
    "Lehman Brothers collapse scenario - severe credit crisis" 733300%Z.

Definition SCENARIO_COVID_CRASH : result StressScenario.t :=
  StressScenario.make "COVID Crash"
    [("SPX", -0.35); ("VIX", 1.5); ("US10Y", -0.010); ("CreditIG", 0.015)]
    "March 2020 pandemic shock - rapid liquidity crisis" 737500%Z.

End PredefinedScenarios.

(** ** Vocabulary for the further properties *)

Module Terms.


(** Every column of the table ends in a price, not in NaN. *)
Definition quoted (df : DataFrame) : Prop :=
  Forall (fun c => exists p, iloc_last (snd c) = Ok (Some p)) (columns df).

(** The latest price of a symbol of a quoted table. *)
Definition price (df : DataFrame) (symbol : string) : Q :=
  match OREAdapter.latest_price df symbol with
  | Ok (Some p) => p
  | _ => 0
  end.

(** The value of the positions whose symbol is a column of the table. *)
Definition holdings_value (positions : dict Q) (df : DataFrame) : Q :=
  Qsum (map (fun sp => if has_column df (fst sp)
                       then snd sp * price df (fst sp) else 0) positions).

(** The value of the positions in one symbol. *)
Definition symbol_value (positions : dict Q) (df : DataFrame)
    (symbol : string) : Q :=
  Qsum (map (fun sp => if String.eqb (fst sp) symbol
                       then snd sp * price df symbol else 0) positions).

(** Two cells hold the same number, or are both NaN. *)
Definition cell_eq (a b : cell) : Prop :=
  match a, b with
  | Some x, Some y => x == y
  | None, None => True
  | _, _ => False
  end.

(** A cell is NaN exactly when the other is. *)
Definition same_nan (a b : cell) : Prop := a = None <-> b = None.

(** Two tables with the same row and column labels whose cells are
    related one by one. *)
Definition frame_rel (R : cell -> cell -> Prop) (df1 df2 : DataFrame) : Prop :=
  index df1 = index df2
  /\ Forall2 (fun c1 c2 => fst c1 = fst c2 /\ Forall2 R (snd c1) (snd c2))
             (columns df1) (columns df2).

(** The day-over-day simple returns of a list of prices. *)
Fixpoint changes_from (prev : Q) (prices : list Q) : list Q :=
  match prices with
  | [] => []
  | v :: rest => (v / prev - 1) :: changes_from v rest
  end.

Definition simple_returns (prices : list Q) : list Q :=
  match prices with
  | [] => []
  | v0 :: rest => changes_from v0 rest
  end.

(** No key of a dictionary is repeated, as in every Python [dict]. *)
Definition distinct_keys {V : Type} (d : dict V) : Prop := NoDup (keys d).

End Terms.

Import Terms.

(** * Properties *)

(** ** Booleans against propositions *)

Section Reflection.

Lemma Qleb_le (a b : Q) : Qleb a b = true <-> a <= b.
Proof. unfold Qleb. apply Qle_bool_iff. Qed.

Lemma Qltb_lt (a b : Q) : Qltb a b = true <-> a < b.
Proof.
  unfold Qltb. rewrite negb_true_iff. split.
  - intros H. apply Qnot_le_lt. intros Hle.
    apply Qle_bool_iff in Hle. congruence.
  - intros H. destruct (Qle_bool b a) eqn:E; [| reflexivity].
    apply Qle_bool_iff in E. exfalso. apply (Qlt_not_le _ _ H E).
Qed.

Lemma Qltb_ge (a b : Q) : Qltb a b = false <-> b <= a.
Proof.
  unfold Qltb. rewrite negb_false_iff. apply Qle_bool_iff.
Qed.

Lemma Qleb_gt (a b : Q) : Qleb a b = false <-> b < a.
Proof.
  rewrite <- Qltb_lt. unfold Qleb, Qltb.
  destruct (Qle_bool a b); simpl; intuition congruence.
Qed.

Lemma str_mem_In (s : string) (l : list string) :
  str_mem s l = true <-> In s l.
Proof.
  unfold str_mem. rewrite existsb_exists. split.
  - intros [x [Hin Heq]]. apply String.eqb_eq in Heq. now subst.
  - intros Hin. exists s. split; [exact Hin | apply String.eqb_refl].
Qed.

Lemma set_eqb_same_set (a b : list string) :
  set_eqb a b = true <-> same_set a b.
Proof.
  unfold set_eqb, same_set.
  rewrite andb_true_iff, !forallb_forall. split.
  - intros [Hab Hba] s. split; intros H.
    + apply str_mem_In, Hab, H.
    + apply str_mem_In, Hba, H.
  - intros H. split; intros s Hs; apply str_mem_In, H, Hs.
Qed.

Lemma dict_get_In {V : Type} (k : string) (d : dict V) :
  In k (keys d) <-> exists v, dict_get k d = Some v.
Proof.
  induction d as [| [k' v'] rest IH]; simpl.
  - split; [tauto | intros [v Hv]; discriminate].
  - destruct (String.eqb k k') eqn:E.
    + apply String.eqb_eq in E. subst. split; eauto.
    + apply String.eqb_neq in E. rewrite <- IH. split.
      * intros [H | H]; [congruence | exact H].
      * intros H. now right.
Qed.

Lemma for_each_unit_ok {A : Type} (xs : list A) (body : A -> unit -> result unit) :
  for_each xs body tt = Ok tt <-> forall x, In x xs -> body x tt = Ok tt.
Proof.
  induction xs as [| x rest IH]; simpl.
  - split; [intros _ y [] | reflexivity].
  - destruct (body x tt) as [[] | e] eqn:E; simpl.
    + rewrite IH. split.
      * intros H y [<- | Hy]; [exact E | apply H, Hy].
      * intros H y Hy. apply H. now right.
    + split; [discriminate |].
      intros H. specialize (H x (or_introl eq_refl)). congruence.
Qed.

Lemma for_each_raise {A S : Type} (xs : list A) (body : A -> S -> result S)
    (s : S) (e : exn) :
  for_each xs body s = Raise e -> exists x s', In x xs /\ body x s' = Raise e.
Proof.
  revert s. induction xs as [| x rest IH]; simpl; intros s H.
  - discriminate.
  - destruct (body x s) as [s1 | e1] eqn:E; simpl in H.
    + destruct (IH _ H) as [y [s' [Hy Hb]]]. exists y, s'. split; [now right | exact Hb].
    + injection H as ->. exists x, s. split; [now left | exact E].
Qed.

Lemma for_each_ok_steps {A S : Type} (xs : list A) (body : A -> S -> result S)
    (s s' : S) :
  for_each xs body s = Ok s' ->
  forall x, In x xs -> exists s1 s2, body x s1 = Ok s2.
Proof.
  revert s. induction xs as [| y xs IH]; intros s H x Hx; simpl in *.
  - contradiction.
  - destruct (body y s) as [s1 | e] eqn:E; cbn [bind] in H; [| discriminate].
    destruct Hx as [<- | Hx]; [eauto | apply (IH _ H _ Hx)].
Qed.

Lemma for_each_total {A S : Type} (xs : list A) (body : A -> S -> result S)
    (s : S) :
  (forall x s1, In x xs -> exists s2, body x s1 = Ok s2) ->
  exists s', for_each xs body s = Ok s'.
Proof.
  revert s. induction xs as [| y xs IH]; intros s H; simpl.
  - eauto.
  - destruct (H y s (or_introl eq_refl)) as [s2 E]. rewrite E. cbn [bind].
    apply IH. intros x s1 Hx. apply H. now right.
Qed.

End Reflection.

(** ** Domain objects validate on construction *)

Section Construction.

Lemma portfolio_validate_ok (self : Portfolio.t) :
  Portfolio._validate_invariants self = Ok tt <->
  portfolio_valid (Portfolio.positions self) (Portfolio.weights self)
                  (Portfolio.nav self).
Proof.
  unfold Portfolio._validate_invariants, portfolio_valid,
    Portfolio.WEIGHT_SUM_TOLERANCE.
  set (w := Qsum (values (Portfolio.weights self))).
  destruct (set_eqb _ _) eqn:Ek; cbn [negb].
  - apply set_eqb_same_set in Ek.
    destruct (Qltb (Qabs (w - 1)) 1e-6) eqn:E1;
      destruct (Qltb (Qabs w) 1e-6) eqn:E2;
      destruct (Qltb (Portfolio.nav self) 0) eqn:En;
      cbn [negb orb];
      try apply Qltb_lt in E1; try apply Qltb_lt in E2;
      try apply Qltb_lt in En; try apply Qltb_ge in E1;
      try apply Qltb_ge in E2; try apply Qltb_ge in En;
      (split; [try discriminate; intros _; auto |]);
      try reflexivity; intros [_ [Hs Hn]].
    + exfalso. apply (Qlt_not_le _ _ En Hn).
    + exfalso. apply (Qlt_not_le _ _ En Hn).
    + exfalso. apply (Qlt_not_le _ _ En Hn).
    + destruct Hs as [H | H]; exfalso;
        [apply (Qlt_not_le _ _ H E1) | apply (Qlt_not_le _ _ H E2)].
    + destruct Hs as [H | H]; exfalso;
        [apply (Qlt_not_le _ _ H E1) | apply (Qlt_not_le _ _ H E2)].
  - split; [discriminate |]. intros [Hk _].
    apply set_eqb_same_set in Hk. congruence.
Qed.

Lemma portfolio_validate_raises (self : Portfolio.t) :
  Portfolio._validate_invariants self = Ok tt
  \/ exists reason,
       Portfolio._validate_invariants self = Raise (ValueError reason).
Proof.
  unfold Portfolio._validate_invariants.
  destruct (negb (set_eqb _ _)); [right; eauto |].
  destruct (negb _); [right; eauto |].
  destruct (Qltb _ _); [right; eauto | now left].
Qed.


Lemma risk_metrics_validate_ok (self : RiskMetrics.t) :
  RiskMetrics._validate_invariants self = Ok tt <->
  risk_metrics_valid (RiskMetrics.var self) (RiskMetrics.cvar self).
Proof.
  unfold RiskMetrics._validate_invariants, risk_metrics_valid.
  destruct (set_eqb _ _) eqn:Ek; cbn [negb].
  - apply set_eqb_same_set in Ek. rewrite for_each_unit_ok. split.
    + intros H. split; [exact Ek |]. intros level v c Hv Hc.
      assert (Hin : In level (keys (RiskMetrics.var self)))
        by (apply dict_get_In; eauto).
      specialize (H level Hin). unfold RiskMetrics.check_level in H.
      rewrite Hv, Hc in H.
      destruct (Qltb _ c) eqn:E; [discriminate |].
      apply Qltb_ge in E. exact E.
    + intros [_ H] level Hin. unfold RiskMetrics.check_level.
      destruct (proj1 (dict_get_In _ _) Hin) as [v Hv].
      destruct (proj1 (dict_get_In _ _) (proj1 (Ek level) Hin)) as [c Hc].
      rewrite Hv, Hc. specialize (H level v c Hv Hc).
      destruct (Qltb _ c) eqn:E; [| reflexivity].
      apply Qltb_lt in E. exfalso. apply (Qlt_not_le _ _ E H).
  - split; [discriminate |]. intros [Hk _].
    apply set_eqb_same_set in Hk. congruence.
Qed.

Lemma risk_metrics_validate_raises (self : RiskMetrics.t) :
  RiskMetrics._validate_invariants self = Ok tt
  \/ exists reason,
       RiskMetrics._validate_invariants self = Raise (ValueError reason).
Proof.
  unfold RiskMetrics._validate_invariants.
  destruct (set_eqb _ _) eqn:Ek; cbn [negb]; [| right; eauto].
  apply set_eqb_same_set in Ek.
  destruct (for_each _ _ tt) as [[] | e] eqn:E; [now left | right].
  apply for_each_raise in E. destruct E as [level [[] [Hin Hb]]].
  unfold RiskMetrics.check_level in Hb.
  destruct (proj1 (dict_get_In _ _) Hin) as [v Hv].
  destruct (proj1 (dict_get_In _ _) (proj1 (Ek level) Hin)) as [c Hc].
  rewrite Hv, Hc in Hb. destruct (Qltb _ c); [| discriminate].
  injection Hb as <-. eauto.
Qed.

Lemma risk_metrics_constructed_valid
    (var cvar : dict Q) (greeks : RiskMetrics.Greeks) (d : date)
    (portfolio_id : string) (meta : option RiskMetrics.Metadata)
    (rm : RiskMetrics.t) :
  RiskMetrics.make var cvar greeks d portfolio_id meta = Ok rm ->
  risk_metrics_valid var cvar.
Proof.
  unfold RiskMetrics.make. intros H.
  destruct (risk_metrics_validate_raises
              (RiskMetrics.mk var cvar greeks d portfolio_id meta))
    as [Hr | [reason Hr]]; rewrite Hr in H; cbn [bind] in H; [| discriminate].
  apply (risk_metrics_validate_ok
           (RiskMetrics.mk var cvar greeks d portfolio_id meta)), Hr.
Qed.


(** The sample objects pass their constructors. *)
Example samples_constructed :
  Portfolio.make [("AAPL", 5); ("MSFT", 10)] [("AAPL", 0.5); ("MSFT", 0.5)]
    1000 0%Z Portfolio.default_metadata = Ok Sample.portfolio
  /\ Portfolio.make [("AAPL", 1)] [("AAPL", 1)] 100 0%Z
       Portfolio.default_metadata = Ok Sample.single_portfolio
  /\ StressScenario.make "Equity -10%" [("equity_all", -0.10)]
       "All equities down 10%" 0%Z = Ok Sample.equity_down_10
  /\ well_formed Sample.prices
  /\ well_formed Sample.rising_prices
  /\ well_formed Sample.aapl_only.
Proof.
  repeat split; try reflexivity; repeat constructor.
Qed.

End Construction.

(** ** Order statistics and the percentile *)

Section Percentile.














End Percentile.

(** ** The result dictionaries of the VaR and CVaR loops *)

Section ResultDictionaries.










End ResultDictionaries.

(** ** CVaR against historical VaR *)

Section CVaR.

Variable norm_ppf : Q -> Q.
Variable series_std : list Q -> Q.


Lemma check_confidence_ok (c : Q) :
  0 < c -> c < 1 -> OREAdapter.check_confidence c tt = Ok tt.
Proof.
  intros H0 H1. unfold OREAdapter.check_confidence.
  apply Qltb_lt in H0. apply Qltb_lt in H1. rewrite H0, H1. reflexivity.
Qed.

Lemma levels_checked (levels : list Q) :
  Forall (fun c => 0 < c /\ c < 1) levels ->
  for_each levels OREAdapter.check_confidence tt = Ok tt.
Proof.
  intros H. apply for_each_unit_ok. intros c Hc.
  rewrite Forall_forall in H. destruct (H c Hc) as [H0 H1].
  apply check_confidence_ok; assumption.
Qed.





End CVaR.


(** ** VaR across confidence levels *)

Section Confidence.

Variable norm_ppf : Q -> Q.
Variable series_std : list Q -> Q.


Lemma calculate_var_levels_valid (portfolio : Portfolio.t)
    (market_data : DataFrame) (method : string) (window_days : Z) (c : Q)
    (d : dict Q) :
  OREAdapter.calculate_var norm_ppf series_std portfolio market_data method
    (Some [c]) window_days = Ok d ->
  0 < c /\ c < 1.
Proof.
  unfold OREAdapter.calculate_var. cbn [for_each].
  unfold OREAdapter.check_confidence.
  destruct (Qltb 0 c) eqn:E0; destruct (Qltb c 1) eqn:E1; cbn [andb bind];
    try discriminate.
  intros _. split; apply Qltb_lt; assumption.
Qed.

Hypothesis ppf_increasing :
  forall p1 p2, p1 <= p2 -> norm_ppf p1 <= norm_ppf p2.
Hypothesis std_nonneg :
  forall returns, (2 <= length returns)%nat -> 0 <= series_std returns.




End Confidence.



(** ** Confidence labels *)

Section Labels.

Variable norm_ppf : Q -> Q.
Variable series_std : list Q -> Q.











End Labels.

(** On binary64 floats the levels 0.975, 0.95, 0.955 and 0.99 have the
    percentages 97, 95, 95 and 99 of the exact model. *)
Example double_percentages :
  Double.percent 0x1.f333333333333p-1%float = Some 97%Z
  /\ Double.percent 0x1.e666666666666p-1%float = Some 95%Z
  /\ Double.percent 0x1.e8f5c28f5c28fp-1%float = Some 95%Z
  /\ Double.percent 0x1.fae147ae147aep-1%float = Some 99%Z.
Proof. vm_compute. repeat split. Qed.


(** ** How many returns a price table yields *)

Section ReturnCounts.

Lemma dropna_from_positions (s : list cell) (k i : nat) (v : Q) :
  In (i, v) (dropna_from k s) -> (k <= i < k + length s)%nat.
Proof.
  revert k. induction s as [| c s IH]; intros k H; simpl in *.
  - contradiction.
  - destruct c as [x |].
    + destruct H as [H | H].
      * injection H as <- _. lia.
      * apply IH in H. lia.
    + apply IH in H. lia.
Qed.

(** Past its first row, a series without NaN sits strictly after the
    first position of the column. *)
Lemma dropna_from_rest (s : list cell) (k i0 : nat) (v0 : Q) (rest : series) :
  dropna_from k s = (i0, v0) :: rest ->
  forall i v, In (i, v) rest -> (k + 1 <= i < k + length s)%nat.
Proof.
  revert k. induction s as [| c s IH]; intros k H i v Hin; simpl in *.
  - discriminate.
  - destruct c as [x |].
    + injection H as _ _ <-. apply dropna_from_positions in Hin. lia.
    + specialize (IH _ H i v Hin). lia.
Qed.

Lemma pct_change_from_positions (s : series) (prev : Q) (i : nat) (v : Q) :
  In (i, v) (pct_change_from prev s) -> exists v', In (i, v') s.
Proof.
  revert prev. induction s as [| [j w] s IH]; intros prev H; simpl in *.
  - contradiction.
  - apply in_app_or in H. destruct H as [H | H].
    + destruct (Qeqb prev 0 && Qeqb w 0); [contradiction |].
      destruct H as [H | []]. injection H as <- _. eauto.
    + destruct (IH _ H) as [v' Hv']. eauto.
Qed.

(** The returns of a column of [n] rows sit at rows 1 to [n-1]. *)
Lemma column_returns_positions (col : list cell) (i : nat) (v : Q) :
  In (i, v) (pct_change_dropna (dropna col)) -> (1 <= i < length col)%nat.
Proof.
  unfold pct_change_dropna, dropna.
  destruct (dropna_from 0 col) as [| [i0 v0] rest] eqn:E; [contradiction |].
  intros H. apply pct_change_from_positions in H. destruct H as [v' H].
  pose proof (dropna_from_rest _ _ _ _ _ E i v' H). lia.
Qed.

Lemma series_get_In (i : nat) (s : series) (v : Q) :
  series_get i s = Some v -> In (i, v) s.
Proof.
  unfold series_get. destruct (find _ s) as [[j w] |] eqn:E; [| discriminate].
  intros H. injection H as <-. apply find_some in E. destruct E as [Hin Hj].
  simpl in Hj. apply Nat.eqb_eq in Hj. now subst.
Qed.

Lemma dict_set_Forall {V : Type} (P : string * V -> Prop) (k : string)
    (v : V) (d : dict V) :
  (forall k', P (k', v)) -> Forall P d -> Forall P (dict_set k v d).
Proof.
  intros Hv. induction 1 as [| [k' v'] d Hp Hd IH]; simpl.
  - constructor; [apply Hv | constructor].
  - destruct (String.eqb k k'); constructor; auto.
Qed.

Lemma dict_get_In_pair {V : Type} (k : string) (d : dict V) (v : V) :
  dict_get k d = Some v -> exists k', In (k', v) d.
Proof.
  induction d as [| [k' v'] d IH]; simpl; [discriminate |].
  destruct (String.eqb k k').
  - intros H. injection H as <-. eauto.
  - intros H. destruct (IH H) as [k'' Hk]. eauto.
Qed.

(** The series collected for the weighted symbols, as the first loop of
    [_calculate_portfolio_returns] builds them. *)
Lemma returns_data_positions (market_data : DataFrame) (symbols : list string)
    (acc : dict series) :
  well_formed market_data ->
  let inside (c : string * series) :=
    forall i v, In (i, v) (snd c) ->
                (1 <= i < length (index market_data))%nat in
  Forall inside acc ->
  Forall inside
    (fold_left
       (fun acc symbol =>
          match column market_data symbol with
          | Some col =>
              let prices := dropna col in
              if (1 <? length prices)%nat then
                dict_set symbol (pct_change_dropna prices) acc
              else acc
          | None => acc
          end) symbols acc).
Proof.
  intros Hwf inside. revert acc.
  induction symbols as [| symbol symbols IH]; intros acc Hacc; simpl.
  - exact Hacc.
  - apply IH. destruct (column market_data symbol) as [col |] eqn:Ec;
      [| exact Hacc].
    destruct (1 <? length (dropna col))%nat; [| exact Hacc].
    apply dict_set_Forall; [| exact Hacc].
    intros k' i v Hin. simpl in Hin.
    apply column_returns_positions in Hin.
    unfold column in Ec. apply dict_get_In_pair in Ec.
    destruct Ec as [name Hname].
    unfold well_formed in Hwf. rewrite Forall_forall in Hwf.
    specialize (Hwf _ Hname). simpl in Hwf. lia.
Qed.

Lemma frame_rows_length (data : dict series) (n : nat) :
  Forall (fun c => forall i v, In (i, v) (snd c) -> (1 <= i < n)%nat) data ->
  (length (frame_rows data) <= n - 1)%nat.
Proof.
  intros H. rewrite <- (length_seq (n - 1) 1).
  apply NoDup_incl_length.
  - unfold frame_rows. apply NoDup_filter, seq_NoDup.
  - intros i Hi. unfold frame_rows in Hi. apply filter_In in Hi.
    destruct Hi as [_ Hi]. apply existsb_exists in Hi.
    destruct Hi as [c [Hc Hget]].
    destruct (series_get i (snd c)) as [v |] eqn:E; [| discriminate].
    apply series_get_In in E. rewrite Forall_forall in H.
    specialize (H c Hc i v E). apply in_seq. lia.
Qed.

Lemma tail_length {A : Type} (n : Z) (l : list A) :
  (length (tail n l) <= length l)%nat.
Proof.
  unfold tail. destruct (n =? 0)%Z; [simpl; lia |].
  destruct (0 <? n)%Z; rewrite length_skipn; lia.
Qed.

(** A table of [n >= 1] rows yields at most [n - 1] portfolio returns. *)
Lemma portfolio_returns_length (portfolio : Portfolio.t)
    (market_data : DataFrame) (window_days : Z) :
  well_formed market_data ->
  (length (OREAdapter._calculate_portfolio_returns portfolio market_data
             window_days)
   <= length (index market_data) - 1)%nat.
Proof.
  intros Hwf. unfold OREAdapter._calculate_portfolio_returns.
  pose proof (returns_data_positions market_data
                (keys (Portfolio.weights portfolio)) [] Hwf (Forall_nil _))
    as Hpos.
  cbv zeta in Hpos.
  set (returns_data := fold_left _ _ _) in *.
  destruct returns_data as [| c rd] eqn:E; [simpl; lia |].
  destruct (filter _ _); [simpl; lia |].
  rewrite length_map.
  eapply Nat.le_trans; [apply tail_length |].
  unfold frame_of_series. rewrite length_map.
  apply frame_rows_length. exact Hpos.
Qed.





Lemma dict_get_set_same {V : Type} (k : string) (v : V) (d : dict V) :
  dict_get k (dict_set k v d) = Some v.
Proof.
  induction d as [| [k' v'] d IH]; simpl.
  - now rewrite String.eqb_refl.
  - destruct (String.eqb k k') eqn:E; simpl; rewrite E; [reflexivity | exact IH].
Qed.

Lemma dict_get_set_other {V : Type} (k k' : string) (v : V) (d : dict V) :
  k <> k' -> dict_get k (dict_set k' v d) = dict_get k d.
Proof.
  intros Hne. induction d as [| [k'' v''] d IH]; simpl.
  - apply String.eqb_neq in Hne. now rewrite Hne.
  - destruct (String.eqb k' k'') eqn:E; simpl.
    + apply String.eqb_eq in E. subst k''.
      apply String.eqb_neq in Hne. now rewrite Hne.
    + destruct (String.eqb k k''); [reflexivity | exact IH].
Qed.




Lemma dict_get_In_entry {V : Type} (k : string) (d : dict V) (v : V) :
  dict_get k d = Some v -> In (k, v) d.
Proof.
  induction d as [| [k' v'] d IH]; simpl; [discriminate |].
  destruct (String.eqb k k') eqn:E.
  - apply String.eqb_eq in E. subst. intros H. injection H as <-. now left.
  - intros H. right. apply IH, H.
Qed.



End ReturnCounts.

(** ** Insufficient data *)

Section InsufficientData.

Variable norm_ppf : Q -> Q.
Variable series_std : list Q -> Q.








End InsufficientData.

Example four_rows_window_four :
  OREAdapter.calculate_var Sample.ppf Sample.std Sample.portfolio
    Sample.prices "historical" None 4
  = Raise (InsufficientDataError 4 3).
Proof. vm_compute. reflexivity. Qed.

(** ** The Kupiec proportion-of-failures test *)

Section Kupiec.

Variable np_log : Q -> Q.

Lemma breach_ratio_inside (x n : Z) :
  (0 < x < n)%Z ->
  0 < inject_Z x / inject_Z n /\ inject_Z x / inject_Z n < 1.
Proof.
  intros [Hx Hn].
  assert (Hxq : 0 < inject_Z x)
    by (change 0 with (inject_Z 0); rewrite <- Zlt_Qlt; lia).
  assert (Hnq : 0 < inject_Z n)
    by (change 0 with (inject_Z 0); rewrite <- Zlt_Qlt; lia).
  assert (Hxn : inject_Z x < inject_Z n) by (rewrite <- Zlt_Qlt; lia).
  split.
  - apply Qlt_shift_div_l; [exact Hnq | lra].
  - apply Qlt_shift_div_r; [exact Hnq | lra].
Qed.

(** C5: for [0 < x < n] the statistic is
    [-2 (x ln(p/(x/n)) + (n-x) ln((1-p)/(1-x/n)))] with [p = 1 - c], and
    for a confidence inside (0, 1) both logarithms are taken of positive
    numbers; for [x = 0] or [x = n] it is NaN and both verdicts are
    [None]; whenever it is a number, the model is rejected at 95% exactly
    when it exceeds 3.84. *)
Theorem kupiec_statistic (x n : Z) (confidence_level : Q) :
  let k := VarBacktest.kupiec_test np_log x n confidence_level in
  let p := 1 - confidence_level in
  let rate := inject_Z x / inject_Z n in
  ((0 < x < n)%Z ->
   VarBacktest.lr_statistic k
   = Some (-2 * (inject_Z x * np_log (p / rate)
                 + (inject_Z n - inject_Z x) * np_log ((1 - p) / (1 - rate))))
   /\ (0 < confidence_level -> confidence_level < 1 ->
       0 < p / rate /\ 0 < (1 - p) / (1 - rate)))
  /\ ((x = 0 \/ x = n)%Z ->
      VarBacktest.lr_statistic k = None
      /\ VarBacktest.reject_at_95 k = None
      /\ VarBacktest.model_valid_95 k = None)
  /\ (forall lr,
        VarBacktest.lr_statistic k = Some lr ->
        (VarBacktest.reject_at_95 k = Some true <-> 3.84 < lr)
        /\ (VarBacktest.model_valid_95 k = Some false <-> 3.84 < lr)
        /\ (VarBacktest.model_valid_95 k = Some true <-> lr <= 3.84))
  /\ VarBacktest.critical_value_95 k = 3.84
  /\ VarBacktest.critical_value_99 k = 6.63.
Proof.
  intros k p rate. unfold k, VarBacktest.kupiec_test.
  split; [| split; [| split; [| split; reflexivity]]].
  - intros [Hx Hn].
    assert (E : ((0 <? x) && (x <? n))%Z = true).
    { apply andb_true_iff. split; apply Z.ltb_lt; assumption. }
    rewrite E. cbn [VarBacktest.lr_statistic]. split; [reflexivity |].
    intros Hc0 Hc1.
    destruct (breach_ratio_inside x n (conj Hx Hn)) as [Hr0 Hr1].
    fold rate in Hr0, Hr1. unfold p. split.
    + apply Qlt_shift_div_l; [exact Hr0 | lra].
    + apply Qlt_shift_div_l; [lra | lra].
  - intros Hx.
    assert (E : ((0 <? x) && (x <? n))%Z = false).
    { apply andb_false_iff. destruct Hx as [-> | ->].
      - left. reflexivity.
      - right. apply Z.ltb_irrefl. }
    rewrite E. repeat split.
  - intros lr. destruct ((0 <? x) && (x <? n))%Z;
      cbn [VarBacktest.lr_statistic VarBacktest.reject_at_95
           VarBacktest.model_valid_95]; [| discriminate].
    intros H. injection H as <-.
    set (s := -2 * _). split; [| split].
    + rewrite <- Qltb_lt. split; [intros H; injection H; auto | intros ->; reflexivity].
    + rewrite <- Qleb_gt. split; [intros H; injection H; auto | intros ->; reflexivity].
    + rewrite <- Qleb_le. split; [intros H; injection H; auto | intros ->; reflexivity].
Qed.

End Kupiec.

(** ** A symbol without market data *)

Section MissingSymbol.

Lemma in_keys {V : Type} (k : string) (v : V) (d : dict V) :
  In (k, v) d -> In k (keys d).
Proof. intros H. unfold keys. apply (in_map fst _ _ H). Qed.

Lemma well_formed_has_rows (df : DataFrame) :
  well_formed df -> index df <> [] -> has_rows df.
Proof.
  unfold well_formed, has_rows. intros H Hi.
  eapply Forall_impl; [| exact H]. intros [name col] Hl E. simpl in *.
  subst col. destruct (index df); [congruence | discriminate].
Qed.

Lemma latest_price_ok (df : DataFrame) (symbol : string) :
  has_rows df -> has_column df symbol = true ->
  exists price, OREAdapter.latest_price df symbol = Ok price.
Proof.
  unfold has_rows, has_column, dict_mem, OREAdapter.latest_price, column.
  intros Hr Hc. destruct (dict_get symbol (columns df)) as [col |] eqn:E;
    [| discriminate].
  apply dict_get_In_pair in E. destruct E as [name Hin].
  rewrite Forall_forall in Hr. specialize (Hr _ Hin). simpl in Hr.
  destruct col; [congruence | simpl; eauto].
Qed.

Lemma calculate_npv_ok (portfolio : Portfolio.t) (df : DataFrame) :
  has_rows df -> exists npv, OREAdapter._calculate_npv portfolio df = Ok npv.
Proof.
  intros Hr. unfold OREAdapter._calculate_npv. apply for_each_total.
  intros [symbol position] npv _. cbn [fst snd].
  destruct (has_column df symbol) eqn:E; [| eauto].
  destruct (latest_price_ok df symbol Hr E) as [price Hp].
  rewrite Hp. cbn [bind]. eauto.
Qed.

Lemma scale_named_has_rows (name : string) (factor : Q) (df : DataFrame) :
  has_rows df -> has_rows (OREAdapter.scale_named name factor df).
Proof.
  unfold has_rows, OREAdapter.scale_named. cbn [columns].
  intros H. apply Forall_map. eapply Forall_impl; [| exact H].
  intros [n col] Hc. cbn [fst snd] in *.
  destruct (String.eqb n name); cbn [snd]; [| exact Hc].
  destruct col; [congruence | discriminate].
Qed.

Lemma scale_all_has_rows (factor : Q) (df : DataFrame) :
  has_rows df -> has_rows (OREAdapter.scale_all factor df).
Proof.
  unfold has_rows, OREAdapter.scale_all. cbn [columns].
  intros H. apply Forall_map. eapply Forall_impl; [| exact H].
  intros [n col] Hc. cbn [fst snd] in *.
  destruct col; [congruence | discriminate].
Qed.

Lemma apply_shocks_has_rows (df : DataFrame) (scenario : StressScenario.t) :
  has_rows df -> has_rows (OREAdapter._apply_shocks df scenario).
Proof.
  unfold OREAdapter._apply_shocks.
  generalize (StressScenario.shocks scenario). intros shocks. revert df.
  induction shocks as [| [factor shock] shocks IH]; intros df H; simpl.
  - exact H.
  - apply IH. destruct (has_column df factor).
    + apply scale_named_has_rows, H.
    + destruct (String.eqb factor "equity_all");
        [apply scale_all_has_rows, H | exact H].
Qed.

Lemma stress_row_no_error (portfolio : Portfolio.t) (df : DataFrame)
    (base_npv : cell) (scenario : StressScenario.t) :
  has_rows df ->
  RiskPort.error (OREAdapter.stress_row portfolio df base_npv scenario) = None
  /\ RiskPort.scenario (OREAdapter.stress_row portfolio df base_npv scenario)
     = StressScenario.name scenario.
Proof.
  intros H. unfold OREAdapter.stress_row.
  destruct (calculate_npv_ok portfolio _ (apply_shocks_has_rows df scenario H))
    as [npv E].
  rewrite E. split; reflexivity.
Qed.

(** A position whose symbol is not a column adds nothing to the NPV. *)
Lemma calculate_npv_skips (positions : dict Q) (df : DataFrame) (npv : cell) :
  for_each positions
    (fun sp npv =>
       if has_column df (fst sp) then
         price <- OREAdapter.latest_price df (fst sp) ;;
         Ok (cell_add npv (cell_mul (Some (snd sp)) price))
       else Ok npv) npv
  = for_each (filter (fun sp => has_column df (fst sp)) positions)
      (fun sp npv =>
         price <- OREAdapter.latest_price df (fst sp) ;;
         Ok (cell_add npv (cell_mul (Some (snd sp)) price))) npv.
Proof.
  revert npv. induction positions as [| [s q] positions IH]; intros npv;
    simpl; [reflexivity |].
  destruct (has_column df s); simpl.
  - destruct (OREAdapter.latest_price df s); cbn [bind]; [apply IH | reflexivity].
  - apply IH.
Qed.

(** C6, as the code has it: [value_portfolio] never returns a value for
    a portfolio with a symbol that has no market-data entry, and on a
    table with at least one row whose row labels are not symbols it
    raises [PricingError] for such a symbol; [stress_test] on the same
    table raises nothing and records no error: it returns one row per
    scenario, in order, each with no error field, and the symbols without
    a column are left out of the NPV. *)
Theorem missing_symbol_fatal_or_skipped
    (portfolio : Portfolio.t) (market_data : DataFrame)
    (scenarios : list StressScenario.t) (symbol : string) :
  In symbol (keys (Portfolio.positions portfolio)) ->
  no_entry market_data symbol ->
  (forall npv, OREAdapter.value_portfolio portfolio market_data <> Ok npv)
  /\ (well_formed market_data -> index market_data <> [] ->
      (forall s, In s (keys (Portfolio.positions portfolio)) ->
                 str_mem s (index market_data) = false) ->
      exists s,
        In s (keys (Portfolio.positions portfolio))
        /\ no_entry market_data s
        /\ OREAdapter.value_portfolio portfolio market_data
           = Raise (PricingError s ("No market data available for " ++ s)%string))
  /\ (well_formed market_data -> index market_data <> [] ->
      exists base_npv rows,
        OREAdapter._calculate_npv portfolio market_data = Ok base_npv
        /\ OREAdapter.stress_test portfolio market_data scenarios = Ok rows
        /\ map RiskPort.scenario rows = map StressScenario.name scenarios
        /\ Forall (fun row => RiskPort.error row = None
                              /\ RiskPort.base_npv row = base_npv) rows)
  /\ OREAdapter._calculate_npv portfolio market_data
     = OREAdapter._calculate_npv
         (Portfolio.mk
            (filter (fun sp => has_column market_data (fst sp))
                    (Portfolio.positions portfolio))
            (Portfolio.weights portfolio) (Portfolio.nav portfolio)
            (Portfolio.as_of_date portfolio) (Portfolio.metadata portfolio))
         market_data.
Proof.
  intros Hin [Hcol Hidx].
  split; [| split; [| split]].
  - intros npv H. unfold OREAdapter.value_portfolio in H.
    unfold keys in Hin. apply in_map_iff in Hin.
    destruct Hin as [[s q] [Hs Hsp]]. simpl in Hs. subst s.
    destruct (for_each_ok_steps _ _ _ _ H _ Hsp) as [s1 [s2 Hb]].
    cbn [fst snd] in Hb. rewrite Hcol, Hidx in Hb. cbn [negb bind] in Hb.
    discriminate.
  - intros Hwf Hne Hlabels.
    pose proof (well_formed_has_rows _ Hwf Hne) as Hr.
    unfold OREAdapter.value_portfolio.
    generalize (Some 0 : cell). revert Hlabels Hin.
    generalize (Portfolio.positions portfolio). intros positions.
    induction positions as [| [s q] positions IH]; intros Hlabels Hin total.
    + contradiction.
    + cbn [for_each fst snd].
      destruct (has_column market_data s) eqn:Es; cbn [negb].
      * destruct (latest_price_ok _ _ Hr Es) as [price Hp]. rewrite Hp.
        cbn [bind].
        assert (Hin' : In symbol (keys positions)).
        { destruct Hin as [E | Hin]; [| exact Hin].
          simpl in E. subst s. congruence. }
        destruct (IH (fun s' Hs' => Hlabels s' (or_intror Hs')) Hin'
                     (cell_add total (cell_mul (Some q) price)))
          as [s' [Hs' [Hno Hv]]].
        exists s'. split; [now right |]. split; [exact Hno | exact Hv].
      * rewrite (Hlabels s (or_introl eq_refl)). cbn [bind].
        exists s. split; [now left |]. split; [| reflexivity].
        split; [exact Es | apply Hlabels; now left].
  - intros Hwf Hne.
    pose proof (well_formed_has_rows _ Hwf Hne) as Hr.
    destruct (calculate_npv_ok portfolio market_data Hr) as [base E].
    exists base. eexists. split; [exact E |].
    unfold OREAdapter.stress_test. rewrite E. cbn [bind].
    split; [reflexivity |]. split.
    + rewrite map_map. apply map_ext. intros sc.
      apply (stress_row_no_error portfolio market_data base sc Hr).
    + apply Forall_map, Forall_forall. intros sc _. split.
      * apply (stress_row_no_error portfolio market_data base sc Hr).
      * unfold OREAdapter.stress_row.
        destruct (OREAdapter._calculate_npv portfolio
                    (OREAdapter._apply_shocks market_data sc)); reflexivity.
  - unfold OREAdapter._calculate_npv. cbn [Portfolio.positions].
    rewrite calculate_npv_skips.
    generalize (Some 0 : cell).
    generalize (Portfolio.positions portfolio). intros positions.
    induction positions as [| [s q] positions IH]; intros npv;
      simpl; [reflexivity |].
    destruct (has_column market_data s) eqn:Es; simpl; [| apply IH].
    rewrite Es. destruct (OREAdapter.latest_price market_data s);
      cbn [bind]; [apply IH | reflexivity].
Qed.

End MissingSymbol.

Lemma missing_symbol_fatal_or_skipped_witness :
  exists s,
    OREAdapter.value_portfolio Sample.portfolio Sample.aapl_only
    = Raise (PricingError s ("No market data available for " ++ s)%string).
Proof.
  destruct (missing_symbol_fatal_or_skipped Sample.portfolio Sample.aapl_only
              [Sample.equity_down_10] "MSFT") as [_ [H _]].
  - vm_compute. auto.
  - split; reflexivity.
  - destruct H as [s [_ [_ Hs]]].
    + repeat constructor.
    + discriminate.
    + intros s [<- | [<- | []]]; reflexivity.
    + exists s. exact Hs.
Defined.

(** C6, as the specification states it, fails: with MSFT held but not
    quoted, the row of a 10% equity shock has a P&L of -50 and no error. *)
Lemma missing_symbol_not_downgraded :
  ~ missing_symbol_downgraded Sample.portfolio Sample.aapl_only
      [Sample.equity_down_10].
Proof.
  intros H. destruct H as [rows [Hrows Hall]].
  - exists "MSFT". split; [vm_compute; auto | split; reflexivity].
  - vm_compute in Hrows. injection Hrows as <-.
    inversion Hall as [| row rest [Hpnl _] _]. discriminate.
Qed.

Example missing_symbol_row :
  match OREAdapter.stress_test Sample.portfolio Sample.aapl_only
          [Sample.equity_down_10] with
  | Ok [row] =>
      option_map Qred (RiskPort.base_npv row) = Some 500
      /\ option_map Qred (RiskPort.stressed_npv row) = Some 450
      /\ option_map Qred (RiskPort.pnl row) = Some (-50)
      /\ option_map Qred (RiskPort.pct_change row) = Some (-1 # 10)
      /\ RiskPort.error row = None
  | _ => False
  end
  /\ OREAdapter.value_portfolio Sample.portfolio Sample.aapl_only
     = Raise (PricingError "MSFT" "No market data available for MSFT").
Proof. vm_compute. repeat split. Qed.

(** ** The linearity check of the stress-testing service *)

Section Linearity.

Variable risk_port : RiskPort.t.
Variable today : date.

Lemma linearity_scenarios_constructed :
  StressScenario.make "Linearity_10pct" [("SPX", -0.10)]
    "10% shock for linearity test" today
  = Ok (StressScenario.mk "Linearity_10pct" [("SPX", -0.10)]
          "10% shock for linearity test" today)
  /\ StressScenario.make "Linearity_20pct" [("SPX", -0.20)]
       "20% shock for linearity test" today
     = Ok (StressScenario.mk "Linearity_20pct" [("SPX", -0.20)]
             "20% shock for linearity test" today).
Proof. split; reflexivity. Qed.

(** The check never raises. *)
Lemma validate_linearity_total (portfolio : Portfolio.t)
    (market_data : DataFrame) (scenarios : list StressScenario.t)
    (warnings : list StressTestingService.warning) :
  exists flag warnings',
    StressTestingService._validate_linearity risk_port today portfolio
      market_data scenarios warnings = Ok (flag, warnings').
Proof.
  unfold StressTestingService._validate_linearity.
  destruct linearity_scenarios_constructed as [-> ->]. cbn [bind].
  destruct (RiskPort.stress_test _ _ _ _) as [rows | e]; [| eauto].
  destruct (StressTestingService.rows_named "Linearity_10pct" rows); [eauto |].
  destruct (StressTestingService.rows_named "Linearity_20pct" rows); [eauto |].
  destruct (StressTestingService.cell_ltb _ _); [eauto |].
  destruct (StressTestingService.cell_leb _ _); eauto.
Qed.


End Linearity.



(** ** Several VaR methods in one request *)

Section MultiMethod.

Variable norm_ppf : Q -> Q.
Variable series_std : list Q -> Q.
Variable _load_market_data :
  RiskCalculationService.RiskCalculationRequest -> result DataFrame.
Variable report_port : option (RiskMetrics.t -> string -> result string).

Lemma has_underscore_app (a b : string) :
  has_underscore (a ++ b)%string = has_underscore a || has_underscore b.
Proof.
  induction a as [| c a IH]; simpl; [reflexivity |].
  rewrite IH. apply orb_assoc.
Qed.

Lemma uint_no_underscore (d : uint) :
  has_underscore (NilEmpty.string_of_uint d) = false.
Proof. induction d; simpl; assumption || reflexivity. Qed.

Lemma label_no_underscore (c : Q) :
  has_underscore (OREAdapter.label c) = false.
Proof.
  unfold OREAdapter.label, str_of_int. rewrite has_underscore_app.
  apply orb_false_iff. split; [| reflexivity].
  unfold NilZero.string_of_int, NilZero.string_of_uint.
  destruct (Z.to_int _) as [d | d]; destruct d; simpl;
    try apply uint_no_underscore; reflexivity.
Qed.

Lemma prefixed_has_underscore (method level : string) :
  has_underscore (method ++ "_" ++ level)%string = true.
Proof.
  rewrite has_underscore_app. apply orb_true_iff. right. reflexivity.
Qed.

Lemma dict_set_keys {V : Type} (P : string -> Prop) (k : string) (v : V)
    (d : dict V) :
  P k -> Forall P (keys d) -> Forall P (keys (dict_set k v d)).
Proof.
  intros Hk. unfold keys. induction d as [| [k' v'] d IH]; simpl; intros H.
  - constructor; [exact Hk | constructor].
  - inversion H as [| ? ? Hk' Hd]; subst.
    destruct (String.eqb k k'); simpl; constructor; auto.
Qed.

Lemma dict_set_nonempty {V : Type} (k : string) (v : V) (d : dict V) :
  dict_set k v d <> [].
Proof. destruct d as [| [k' v'] d]; simpl; [| destruct (String.eqb k k')]; discriminate. Qed.

(** The labels of a CVaR result are confidence labels. *)
Lemma cvar_loop_keys (returns : list Q) (nav : Q) (levels : list Q)
    (d0 d : dict Q) :
  for_each levels (OREAdapter.cvar_step returns nav) d0 = Ok d ->
  Forall (fun k => has_underscore k = false) (keys d0) ->
  Forall (fun k => has_underscore k = false) (keys d).
Proof.
  revert d0. induction levels as [| c levels IH]; intros d0 H H0; simpl in H.
  - injection H as <-. exact H0.
  - unfold OREAdapter.cvar_step at 1 in H.
    destruct (Numpy.percentile _ _); cbn [bind] in H; [| discriminate].
    apply (IH _ H). apply dict_set_keys; [apply label_no_underscore | exact H0].
Qed.

Lemma calculate_cvar_keys (portfolio : Portfolio.t) (market_data : DataFrame)
    (params : option RiskPort.VarParams) (d : dict Q) :
  OREAdapter.calculate_cvar portfolio market_data params = Ok d ->
  Forall (fun k => has_underscore k = false) (keys d).
Proof.
  unfold OREAdapter.calculate_cvar. destruct (_ <? _)%Z; [discriminate |].
  intros H. apply (cvar_loop_keys _ _ _ _ _ H). constructor.
Qed.

Lemma loop_nonempty {S : Type} (levels : list Q)
    (step : Q -> dict S -> result (dict S)) (d0 d : dict S) :
  (forall c s s', step c s = Ok s' -> s' <> []) ->
  for_each levels step d0 = Ok d -> levels <> [] \/ d0 <> [] -> d <> [].
Proof.
  intros Hstep. revert d0.
  induction levels as [| c levels IH]; intros d0 H Hne; simpl in H.
  - injection H as <-. destruct Hne; congruence.
  - destruct (step c d0) as [s' |] eqn:E; cbn [bind] in H; [| discriminate].
    apply (IH _ H). right. apply (Hstep _ _ _ E).
Qed.

(** A VaR result for at least one level has at least one entry. *)
Lemma calculate_var_nonempty (portfolio : Portfolio.t)
    (market_data : DataFrame) (method : string) (levels : list Q)
    (window_days : Z) (d : dict Q) :
  levels <> [] ->
  OREAdapter.calculate_var norm_ppf series_std portfolio market_data method
    (Some levels) window_days = Ok d ->
  d <> [].
Proof.
  intros Hl. unfold OREAdapter.calculate_var.
  destruct (for_each levels OREAdapter.check_confidence tt); cbn [bind];
    [| discriminate].
  destruct (_ <? _)%Z; [discriminate |].
  destruct (String.eqb method "historical").
  - intros H. eapply loop_nonempty; [| exact H | now left].
    intros c s s' Hs. unfold OREAdapter.historical_step in Hs.
    destruct (Numpy.percentile _ _); cbn [bind] in Hs; [| discriminate].
    injection Hs as <-. apply dict_set_nonempty.
  - destruct (String.eqb method "parametric"); [| discriminate].
    intros H. eapply loop_nonempty; [| exact H | now left].
    intros c s s' Hs. unfold OREAdapter.parametric_step in Hs.
    injection Hs as <-. apply dict_set_nonempty.
Qed.

Lemma merge_prefixed_keys (method : string) (method_var acc : dict Q) :
  Forall (fun k => has_underscore k = true) (keys acc) ->
  Forall (fun k => has_underscore k = true)
         (keys (RiskCalculationService.merge_prefixed method method_var acc)).
Proof.
  unfold RiskCalculationService.merge_prefixed. revert acc.
  induction method_var as [| [level value] method_var IH]; intros acc H; simpl.
  - exact H.
  - apply IH. apply dict_set_keys; [apply prefixed_has_underscore | exact H].
Qed.

Lemma merge_prefixed_nonempty (method : string) (method_var acc : dict Q) :
  method_var <> [] \/ acc <> [] ->
  RiskCalculationService.merge_prefixed method method_var acc <> [].
Proof.
  unfold RiskCalculationService.merge_prefixed. revert acc.
  induction method_var as [| [level value] method_var IH]; intros acc H; simpl.
  - destruct H; congruence.
  - apply IH. right. apply dict_set_nonempty.
Qed.

(** With several methods, the merged VaR dictionary is not empty and all
    its keys carry the method prefix. *)
Lemma var_loop_prefixed (request : RiskCalculationService.RiskCalculationRequest)
    (market_data : DataFrame) (all_methods : list string) (levels : list Q)
    (methods : list string) (acc var_results : dict Q) :
  (1 <? length all_methods)%nat = true -> levels <> [] ->
  for_each methods
    (RiskCalculationService.var_step
       (OREAdapter.adapter norm_ppf series_std) request market_data
       all_methods levels) acc = Ok var_results ->
  Forall (fun k => has_underscore k = true) (keys acc) ->
  methods <> [] \/ acc <> [] ->
  Forall (fun k => has_underscore k = true) (keys var_results)
  /\ var_results <> [].
Proof.
  intros Hm Hl. revert acc.
  induction methods as [| method methods IH]; intros acc H Hacc Hne;
    simpl in H.
  - injection H as <-. split; [exact Hacc |]. destruct Hne; congruence.
  - unfold RiskCalculationService.var_step at 1 in H.
    cbn [RiskPort.calculate_var OREAdapter.adapter] in H.
    destruct (OREAdapter.calculate_var _ _ _ _ _ _ _) as [method_var |] eqn:E;
      cbn [bind] in H; [| discriminate].
    rewrite Hm in H. cbn [bind] in H.
    apply (IH _ H).
    + apply merge_prefixed_keys, Hacc.
    + right. apply merge_prefixed_nonempty. left.
      apply (calculate_var_nonempty _ _ _ _ _ _ Hl E).
Qed.

Lemma or_default_nonempty {A : Type} (xs : option (list A)) (default : list A) :
  default <> [] -> RiskCalculationService.or_default xs default <> [].
Proof.
  intros H. destruct xs as [[| x xs] |]; simpl; congruence || discriminate.
Qed.

(** C2: with the ORE adapter as risk port, a request for two or more
    VaR methods never yields a response: the VaR keys carry a method
    prefix, the CVaR keys do not, and the construction of [RiskMetrics]
    rejects the two key sets. *)
Theorem several_methods_never_return
    (request : RiskCalculationService.RiskCalculationRequest) :
  (2 <= length (RiskCalculationService.or_default
                  (RiskCalculationService.methods request) ["historical"]))%nat ->
  forall response,
    RiskCalculationService.calculate (OREAdapter.adapter norm_ppf series_std)
      _load_market_data report_port request <> Ok response.
Proof.
  intros Hm response H. unfold RiskCalculationService.calculate in H.
  set (methods := RiskCalculationService.or_default _ ["historical"]) in *.
  set (levels := RiskCalculationService.or_default _ [0.95; 0.99]) in *.
  destruct (_load_market_data request) as [market_data |]; cbn [bind] in H;
    [| discriminate].
  destruct (for_each methods
              (RiskCalculationService.var_step
                 (OREAdapter.adapter norm_ppf series_std) request market_data
                 methods levels) []) as [var_results |] eqn:Ev;
    cbn [bind] in H; [| discriminate].
  cbn [RiskPort.calculate_cvar OREAdapter.adapter] in H.
  destruct (OREAdapter.calculate_cvar _ _ _) as [cvar_results |] eqn:Ec;
    cbn [bind] in H; [| discriminate].
  destruct (if RiskCalculationService.compute_greeks request then _ else _)
    as [greeks warnings].
  destruct (RiskMetrics.make var_results cvar_results _ _ _ _) as [metrics |]
    eqn:Em; cbn [bind] in H; [| discriminate].
  clear H.
  destruct (risk_metrics_constructed_valid _ _ _ _ _ _ _ Em) as [Hkeys _].
  assert (Hlen : (1 <? length methods)%nat = true) by (apply Nat.ltb_lt; lia).
  assert (Hl : levels <> []) by (apply or_default_nonempty; discriminate).
  assert (Hmne : methods <> []) by (destruct methods; simpl in Hm; [lia | discriminate]).
  destruct (var_loop_prefixed request market_data methods levels methods []
              var_results Hlen Hl Ev (Forall_nil _) (or_introl Hmne))
    as [Hpre Hne].
  pose proof (calculate_cvar_keys _ _ _ _ Ec) as Hc.
  destruct var_results as [| [k v] rest]; [congruence |].
  inversion Hpre as [| ? ? Hk _]; subst. simpl in Hk.
  assert (Hin : In k (keys cvar_results)) by (apply Hkeys; now left).
  rewrite Forall_forall in Hc. specialize (Hc _ Hin). congruence.
Qed.

End MultiMethod.

Lemma several_methods_never_return_witness :
  is_ok (RiskCalculationService.calculate
           (OREAdapter.adapter Sample.ppf Sample.std) Sample.loaded_prices
           None Sample.two_method_request) = false.
Proof.
  destruct (RiskCalculationService.calculate _ _ _ _) as [response |] eqn:E;
    [| reflexivity].
  exfalso.
  apply (several_methods_never_return Sample.ppf Sample.std
           Sample.loaded_prices None Sample.two_method_request
           ltac:(simpl; lia) response E).
Defined.

(** The request for the historical and the parametric method on the
    sample table: the construction of the metrics raises. *)
Example two_methods_raise :
  RiskCalculationService.calculate
    (OREAdapter.adapter Sample.ppf Sample.std) Sample.loaded_prices None
    Sample.two_method_request
  = Raise (ValueError
             (LevelsMismatch
                ["historical_95%"; "historical_99%";
                 "parametric_95%"; "parametric_99%"]
                ["95%"; "99%"])).
Proof. vm_compute. reflexivity. Qed.

(** The same request with the historical method alone is answered. *)
Example one_method_returns :
  is_ok (RiskCalculationService.calculate
           (OREAdapter.adapter Sample.ppf Sample.std) Sample.loaded_prices
           None
           (RiskCalculationService.mkRequest Sample.portfolio "v1"
              (Some ["historical"]) None 3 true false
              "artifacts/risk_reports")) = true.
Proof. vm_compute. reflexivity. Qed.

(** * Further properties *)

(** ** Stress scenarios *)

Section Scenarios.






End Scenarios.


(** ** Portfolios from weights, and what their accessors return *)

Section Portfolios.

Lemma dict_set_absent_keys {V : Type} (k : string) (v : V) (d : dict V) :
  ~ In k (keys d) -> keys (dict_set k v d) = keys d ++ [k].
Proof.
  unfold keys. induction d as [| [k' v'] d IH]; simpl; intros H.
  - reflexivity.
  - destruct (String.eqb k k') eqn:E.
    + apply String.eqb_eq in E. subst. exfalso. apply H. now left.
    + simpl. f_equal. apply IH. intros Hin. apply H. now right.
Qed.

Lemma dict_get_absent {V : Type} (k : string) (d : dict V) :
  ~ In k (keys d) -> dict_get k d = None.
Proof.
  intros H. destruct (dict_get k d) eqn:E; [| reflexivity].
  exfalso. apply H. apply dict_get_In. eauto.
Qed.

(** What the loop of [from_weights] leaves when it ends. *)
Lemma positions_loop (nav : Q) (prices : dict Q) (weights : dict Q) :
  forall acc positions,
    NoDup (keys weights) ->
    (forall s, In s (keys weights) -> ~ In s (keys acc)) ->
    for_each_x weights (PortfolioMethods.position_step nav prices) acc
    = Done positions ->
    keys positions = keys acc ++ keys weights
    /\ (forall s v, dict_get s acc = Some v -> dict_get s positions = Some v)
    /\ (forall s w, In (s, w) weights ->
          exists price,
            dict_get s prices = Some price /\ ~ price == 0
            /\ dict_get s positions = Some (nav * w / price)).
Proof.
  induction weights as [| [s w] weights IH]; intros acc positions Hnd Hdis H;
    cbn [for_each_x] in H.
  - injection H as <-. split; [now rewrite app_nil_r |].
    split; [auto | intros s w []].
  - unfold PortfolioMethods.position_step at 1 in H. cbn [fst snd] in H.
    destruct (dict_get s prices) as [price |] eqn:Ep; cbn [bind_x] in H;
      [| discriminate].
    destruct (Qeqb price 0) eqn:Ez; cbn [bind_x] in H; [discriminate |].
    cbn [keys map fst] in Hnd. inversion Hnd as [| ? ? Hs Hnd']; subst.
    assert (Hacc : ~ In s (keys acc)) by (apply Hdis; now left).
    destruct (IH (dict_set s (nav * w / price) acc) positions Hnd') as
      [Hk [Hkeep Hnew]].
    + intros s' Hs' Hin. rewrite (dict_set_absent_keys _ _ _ Hacc) in Hin.
      apply in_app_or in Hin. destruct Hin as [Hin | [<- | []]].
      * apply (Hdis s'); [now right | exact Hin].
      * apply Hs, Hs'.
    + exact H.
    + rewrite (dict_set_absent_keys _ _ _ Hacc) in Hk.
      split; [rewrite Hk, <- app_assoc; reflexivity |]. split.
      * intros s' v Hv. apply Hkeep.
        rewrite dict_get_set_other; [exact Hv |].
        intros ->. rewrite (dict_get_absent _ _ Hacc) in Hv. discriminate.
      * intros s' w' [Heq | Hin].
        -- injection Heq as <- <-. exists price.
           split; [exact Ep |]. split; [apply Qeq_bool_neq, Ez |].
           apply Hkeep, dict_get_set_same.
        -- apply Hnew, Hin.
Qed.

(** X3: a portfolio built by [from_weights] from weights without a
    repeated symbol keeps the weights and the NAV, holds exactly the
    weighted symbols, in their order, so as many positions as there are
    weights and none only for no weights, and each position times its
    price is the NAV times the weight; every weighted symbol had a
    non-zero price. *)
Theorem from_weights_positions
    (weights prices : dict Q) (nav : Q) (d : date)
    (metadata : option Portfolio.PortfolioMetadata) (p : Portfolio.t) :
  distinct_keys weights ->
  PortfolioMethods.from_weights weights nav prices d metadata = Done p ->
  Portfolio.weights p = weights
  /\ Portfolio.nav p = nav
  /\ Portfolio.symbols p = keys weights
  /\ PortfolioMethods.num_positions p = length weights
  /\ (PortfolioMethods.is_empty p = true <-> weights = [])
  /\ forall symbol weight,
       dict_get symbol weights = Some weight ->
       exists price,
         dict_get symbol prices = Some price /\ ~ price == 0
         /\ PortfolioMethods.get_position p symbol * price == nav * weight.
Proof.
  unfold distinct_keys, PortfolioMethods.from_weights. intros Hnd H.
  destruct (for_each_x weights (PortfolioMethods.position_step nav prices) [])
    as [positions |] eqn:El; cbn [bind_x] in H; [| discriminate].
  destruct (positions_loop nav prices weights [] positions Hnd
              (fun s _ Hin => Hin) El) as [Hk [_ Hnew]].
  unfold Portfolio.make in H.
  destruct (Portfolio._validate_invariants _); cbn [bind lift] in H;
    [| discriminate].
  injection H as <-. cbn [Portfolio.weights Portfolio.nav].
  unfold Portfolio.symbols, PortfolioMethods.get_position,
    PortfolioMethods.num_positions, PortfolioMethods.is_empty.
  cbn [Portfolio.positions].
  assert (Hlen : length positions = length weights).
  { rewrite <- (length_map fst positions), <- (length_map fst weights).
    cbn [app] in Hk. unfold keys in Hk. now rewrite Hk. }
  split; [reflexivity |]. split; [reflexivity |]. split; [exact Hk |].
  split; [exact Hlen |]. split.
  { rewrite Hlen. destruct weights; cbn [length Nat.eqb]; split;
      congruence. }
  intros symbol weight Hw. apply dict_get_In_entry in Hw.
  destruct (Hnew _ _ Hw) as [price [Hp [Hz Hpos]]].
  exists price. split; [exact Hp |]. split; [exact Hz |].
  rewrite Hpos. field. exact Hz.
Qed.

Lemma from_weights_positions_witness :
  exists p,
    PortfolioMethods.from_weights [("AAPL", 0.6); ("MSFT", 0.4)] 100000
      [("AAPL", 150); ("MSFT", 300)] 0%Z None = Done p
    /\ Portfolio.symbols p = ["AAPL"; "MSFT"].
Proof.
  eexists. split; [reflexivity |].
  refine (proj1 (proj2 (proj2
            (from_weights_positions [("AAPL", 0.6); ("MSFT", 0.4)]
               [("AAPL", 150); ("MSFT", 300)] 100000 0%Z None _ _ _)))).
  - repeat constructor; simpl; intuition discriminate.
  - reflexivity.
Defined.








End Portfolios.

(** ** Risk metrics: what the accessors answer, and the Greeks *)

Section Metrics.




Lemma fold_left_sum (l : dict Q) (a : Q) :
  fold_left (fun acc sw => acc + snd sw) l a == a + Qsum (values l).
Proof.
  revert a. unfold values.
  induction l as [| [k w] l IH]; intros a; cbn [fold_left map Qsum snd].
  - lra.
  - rewrite IH. lra.
Qed.

(** X7: for a constructed portfolio [compute_greeks] always answers: the
    delta is the sum of the weights, so within 1e-6 of 1 (or of 0 for a
    cash-only portfolio), gamma and vega are 0 and the other four are
    left empty, whatever the market data; risk metrics that carry these
    Greeks have [has_greeks], those of [create_with_var_only] have not. *)
Theorem equity_greeks
    (positions weights : dict Q) (nav : Q) (d : date)
    (m : Portfolio.PortfolioMetadata) (portfolio : Portfolio.t)
    (market_data : DataFrame) :
  Portfolio.make positions weights nav d m = Ok portfolio ->
  exists delta,
    OREAdapter.compute_greeks portfolio market_data
    = Ok (RiskMetrics.mkGreeks (Some delta) (Some 0) (Some 0)
                               None None None None)
    /\ delta == Qsum (values weights)
    /\ (Qabs (delta - 1) < 1e-6 \/ Qabs delta < 1e-6)
    /\ (forall var cvar day portfolio_id meta,
          RiskMetricsMethods.has_greeks
            (RiskMetrics.mk var cvar
               (RiskMetrics.mkGreeks (Some delta) (Some 0) (Some 0)
                                     None None None None)
               day portfolio_id meta) = true)
    /\ (forall var cvar day portfolio_id self,
          RiskMetricsMethods.create_with_var_only var cvar day portfolio_id
          = Ok self ->
          RiskMetricsMethods.has_greeks self = false).
Proof.
  intros H.
  assert (Hvalid : portfolio_valid positions weights nav).
  { unfold Portfolio.make in H.
    destruct (portfolio_validate_raises (Portfolio.mk positions weights nav d m))
      as [Hr | [reason Hr]]; rewrite Hr in H; cbn [bind] in H;
      [| discriminate].
    apply (portfolio_validate_ok (Portfolio.mk positions weights nav d m)), Hr. }
  assert (Hp : portfolio = Portfolio.mk positions weights nav d m).
  { unfold Portfolio.make in H.
    destruct (Portfolio._validate_invariants _); cbn [bind] in H;
      [now injection H | discriminate]. }
  subst portfolio. unfold OREAdapter.compute_greeks.
  cbn [Portfolio.weights].
  exists (fold_left (fun acc sw => acc + snd sw) weights 0).
  split; [reflexivity |].
  assert (E : fold_left (fun acc sw => acc + snd sw) weights 0
              == Qsum (values weights)).
  { rewrite fold_left_sum. lra. }
  split; [exact E |]. split.
  - destruct Hvalid as [_ [[Hs | Hs] _]]; [left | right].
    + assert (E1 : fold_left (fun acc sw => acc + snd sw) weights 0 - 1
                   == Qsum (values weights) - 1) by (rewrite E; reflexivity).
      rewrite (Qabs_wd _ _ E1). exact Hs.
    + rewrite (Qabs_wd _ _ E). exact Hs.
  - split; [reflexivity |].
    intros var cvar day portfolio_id self Hc.
    unfold RiskMetricsMethods.create_with_var_only, RiskMetrics.make in Hc.
    destruct (RiskMetrics._validate_invariants _); cbn [bind] in Hc;
      [| discriminate].
    injection Hc as <-. reflexivity.
Qed.

Lemma equity_greeks_witness :
  exists delta,
    OREAdapter.compute_greeks Sample.portfolio Sample.prices
    = Ok (RiskMetrics.mkGreeks (Some delta) (Some 0) (Some 0)
                               None None None None)
    /\ delta == Qsum (values [("AAPL", 0.5); ("MSFT", 0.5)]).
Proof.
  destruct (equity_greeks [("AAPL", 5); ("MSFT", 10)]
              [("AAPL", 0.5); ("MSFT", 0.5)] 1000 0%Z
              Portfolio.default_metadata Sample.portfolio Sample.prices
              eq_refl) as [delta [H1 [H2 _]]].
  exists delta. split; [exact H1 | exact H2].
Defined.

End Metrics.

(** ** Valuation and single shocks *)

Section Valuation.

Lemma last_map_cell {A B : Type} (g : A -> B) (l : list A) (c : A) :
  last (map g l) (g c) = g (last l c).
Proof.
  revert c. induction l as [| x l IH]; intros c; [reflexivity |].
  destruct l as [| y l]; [reflexivity |].
  change (last (map g (y :: l)) (g c) = g (last (y :: l) c)). apply IH.
Qed.

Lemma iloc_last_scale (f : Q) (col : list cell) (c : cell) :
  iloc_last col = Ok c ->
  iloc_last (OREAdapter.scale_column f col) = Ok (cell_mul c (Some f)).
Proof.
  destruct col as [| c0 rest]; [discriminate |]. intros H.
  injection H as <-. unfold OREAdapter.scale_column. cbn [map iloc_last].
  f_equal. apply (last_map_cell (fun c => cell_mul c (Some f))).
Qed.

Lemma dict_get_map_values {V W : Type} (g : V -> W) (k : string) (d : dict V) :
  dict_get k (map (fun c => (fst c, g (snd c))) d)
  = option_map g (dict_get k d).
Proof.
  induction d as [| [k' v] d IH]; [reflexivity |].
  cbn [map fst snd dict_get]. destruct (String.eqb k k'); [reflexivity | exact IH].
Qed.

Lemma dict_get_map_named {V : Type} (g : V -> V) (name k : string)
    (d : dict V) :
  dict_get k (map (fun c => if String.eqb (fst c) name
                            then (fst c, g (snd c)) else c) d)
  = if String.eqb k name then option_map g (dict_get k d) else dict_get k d.
Proof.
  induction d as [| [k' v] d IH].
  - cbn [map dict_get]. now destruct (String.eqb k name).
  - cbn [map fst snd dict_get].
    destruct (String.eqb k' name) eqn:En; cbn [dict_get];
      destruct (String.eqb k k') eqn:Ek; rewrite ?IH; try reflexivity.
    + apply String.eqb_eq in Ek, En. subst.
      now rewrite String.eqb_refl.
    + apply String.eqb_eq in Ek. subst. now rewrite En.
Qed.

Lemma quoted_latest_price (df : DataFrame) (symbol : string) :
  quoted df -> has_column df symbol = true ->
  OREAdapter.latest_price df symbol = Ok (Some (price df symbol)).
Proof.
  unfold quoted, has_column, dict_mem, price, OREAdapter.latest_price, column.
  intros Hq Hc.
  destruct (dict_get symbol (columns df)) as [col |] eqn:E; [| discriminate].
  apply dict_get_In_entry in E.
  rewrite Forall_forall in Hq. destruct (Hq _ E) as [p Hp].
  cbn [snd] in Hp. rewrite Hp. reflexivity.
Qed.

(** The valuation loop on a quoted table, from any running total. *)
Lemma npv_loop (df : DataFrame) (positions : dict Q) :
  quoted df ->
  forall a,
    exists v,
      for_each positions
        (fun sp npv =>
           if has_column df (fst sp) then
             price <- OREAdapter.latest_price df (fst sp) ;;
             Ok (cell_add npv (cell_mul (Some (snd sp)) price))
           else Ok npv) (Some a)
      = Ok (Some v)
      /\ v == a + holdings_value positions df.
Proof.
  intros Hq. unfold holdings_value.
  induction positions as [| [symbol q] positions IH]; intros a;
    cbn [for_each map Qsum fst snd].
  - exists a. split; [reflexivity | lra].
  - destruct (has_column df symbol) eqn:Ec.
    + rewrite (quoted_latest_price df symbol Hq Ec). cbn [bind].
      unfold cell_add, cell_mul. cbn [cell_lift2].
      destruct (IH (a + q * price df symbol)) as [v [Hv Ev]].
      exists v. split; [exact Hv | rewrite Ev; lra].
    + cbn [bind]. destruct (IH a) as [v [Hv Ev]].
      exists v. split; [exact Hv | rewrite Ev; lra].
Qed.

Lemma npv_quoted (portfolio : Portfolio.t) (df : DataFrame) :
  quoted df ->
  exists v,
    OREAdapter._calculate_npv portfolio df = Ok (Some v)
    /\ v == holdings_value (Portfolio.positions portfolio) df.
Proof.
  intros Hq. destruct (npv_loop df (Portfolio.positions portfolio) Hq 0)
    as [v [Hv Ev]].
  exists v. split; [exact Hv | rewrite Ev; lra].
Qed.

Lemma value_portfolio_on_columns (portfolio : Portfolio.t) (df : DataFrame) :
  (forall symbol, In symbol (Portfolio.symbols portfolio) ->
     has_column df symbol = true) ->
  OREAdapter.value_portfolio portfolio df
  = OREAdapter._calculate_npv portfolio df.
Proof.
  unfold OREAdapter.value_portfolio, OREAdapter._calculate_npv,
    Portfolio.symbols.
  generalize (Some 0).
  induction (Portfolio.positions portfolio) as [| [symbol q] positions IH];
    intros a Hall; [reflexivity |].
  cbn [for_each fst snd].
  rewrite (Hall symbol (or_introl eq_refl)). cbn [negb].
  destruct (OREAdapter.latest_price df symbol) as [p | e]; cbn [bind];
    [| reflexivity].
  apply IH. intros s Hs. apply Hall. now right.
Qed.

(** X8: on a table whose columns all end in a price the valuation of the
    stress tests is the sum of position times latest price over the held
    symbols that are columns; and when every held symbol is a column,
    [value_portfolio] gives the same result as that valuation, on any
    table. *)
Theorem valuation_is_holdings_value
    (portfolio : Portfolio.t) (df : DataFrame) :
  (quoted df ->
   exists v,
     OREAdapter._calculate_npv portfolio df = Ok (Some v)
     /\ v == holdings_value (Portfolio.positions portfolio) df)
  /\ ((forall symbol, In symbol (Portfolio.symbols portfolio) ->
         has_column df symbol = true) ->
      OREAdapter.value_portfolio portfolio df
      = OREAdapter._calculate_npv portfolio df).
Proof.
  split; [apply npv_quoted | apply value_portfolio_on_columns].
Qed.

Lemma valuation_is_holdings_value_witness :
  OREAdapter.value_portfolio Sample.portfolio Sample.prices
  = OREAdapter._calculate_npv Sample.portfolio Sample.prices.
Proof.
  refine (proj2 (valuation_is_holdings_value Sample.portfolio Sample.prices) _).
  intros symbol [<- | [<- | []]]; reflexivity.
Defined.

Lemma scale_all_columns (f : Q) (df : DataFrame) (symbol : string) :
  has_column (OREAdapter.scale_all f df) symbol = has_column df symbol.
Proof.
  unfold has_column, dict_mem, OREAdapter.scale_all. cbn [columns].
  rewrite dict_get_map_values. now destruct (dict_get symbol (columns df)).
Qed.

Lemma scale_named_columns (name : string) (f : Q) (df : DataFrame)
    (symbol : string) :
  has_column (OREAdapter.scale_named name f df) symbol = has_column df symbol.
Proof.
  unfold has_column, dict_mem, OREAdapter.scale_named. cbn [columns].
  rewrite dict_get_map_named.
  destruct (String.eqb symbol name); now destruct (dict_get symbol (columns df)).
Qed.

Lemma scale_all_quoted (f : Q) (df : DataFrame) :
  quoted df -> quoted (OREAdapter.scale_all f df).
Proof.
  unfold quoted, OREAdapter.scale_all. cbn [columns]. intros Hq.
  apply Forall_map. apply (Forall_impl _ (P := fun c => exists p, iloc_last (snd c) = Ok (Some p))); [| exact Hq].
  intros [k col] [p Hp]. cbn [snd] in *.
  exists (p * f). now rewrite (iloc_last_scale f col _ Hp).
Qed.

Lemma scale_named_quoted (name : string) (f : Q) (df : DataFrame) :
  quoted df -> quoted (OREAdapter.scale_named name f df).
Proof.
  unfold quoted, OREAdapter.scale_named. cbn [columns]. intros Hq.
  apply Forall_map. apply (Forall_impl _ (P := fun c => exists p, iloc_last (snd c) = Ok (Some p))); [| exact Hq].
  intros [k col] [p Hp]. cbn [fst snd] in *.
  destruct (String.eqb k name); cbn [snd]; [| eauto].
  exists (p * f). now rewrite (iloc_last_scale f col _ Hp).
Qed.

Lemma scale_all_price (f : Q) (df : DataFrame) (symbol : string) :
  quoted df -> has_column df symbol = true ->
  price (OREAdapter.scale_all f df) symbol = price df symbol * f.
Proof.
  intros Hq Hc. pose proof (quoted_latest_price df symbol Hq Hc) as Hp.
  unfold price at 1. unfold OREAdapter.latest_price, column in *.
  unfold OREAdapter.scale_all. cbn [columns]. rewrite dict_get_map_values.
  destruct (dict_get symbol (columns df)) as [col |]; [| discriminate].
  cbn [option_map]. now rewrite (iloc_last_scale f col _ Hp).
Qed.

Lemma scale_named_price (name : string) (f : Q) (df : DataFrame)
    (symbol : string) :
  quoted df -> has_column df symbol = true ->
  price (OREAdapter.scale_named name f df) symbol
  = if String.eqb symbol name then price df symbol * f else price df symbol.
Proof.
  intros Hq Hc. pose proof (quoted_latest_price df symbol Hq Hc) as Hp.
  unfold price at 1. unfold OREAdapter.latest_price, column in *.
  unfold OREAdapter.scale_named. cbn [columns]. rewrite dict_get_map_named.
  destruct (String.eqb symbol name).
  - destruct (dict_get symbol (columns df)) as [col |]; [| discriminate].
    cbn [option_map]. now rewrite (iloc_last_scale f col _ Hp).
  - unfold price, OREAdapter.latest_price, column.
    destruct (dict_get symbol (columns df)) as [col |]; [| discriminate].
    now rewrite Hp.
Qed.

Lemma holdings_scale_all (f : Q) (df : DataFrame) (positions : dict Q) :
  quoted df ->
  holdings_value positions (OREAdapter.scale_all f df)
  == f * holdings_value positions df.
Proof.
  intros Hq. unfold holdings_value.
  induction positions as [| [symbol q] positions IH]; cbn [map Qsum fst snd].
  - lra.
  - rewrite IH, scale_all_columns.
    destruct (has_column df symbol) eqn:Ec; [| lra].
    rewrite (scale_all_price f df symbol Hq Ec). lra.
Qed.

Lemma holdings_scale_named (name : string) (f : Q) (df : DataFrame)
    (positions : dict Q) :
  quoted df -> has_column df name = true ->
  holdings_value positions (OREAdapter.scale_named name f df)
  == holdings_value positions df + (f - 1) * symbol_value positions df name.
Proof.
  intros Hq Hn. unfold holdings_value, symbol_value.
  induction positions as [| [symbol q] positions IH]; cbn [map Qsum fst snd].
  - lra.
  - rewrite IH, scale_named_columns.
    destruct (String.eqb symbol name) eqn:En.
    + apply String.eqb_eq in En. subst symbol. rewrite Hn.
      rewrite (scale_named_price name f df name Hq Hn), String.eqb_refl. lra.
    + destruct (has_column df symbol) eqn:Ec; [| lra].
      rewrite (scale_named_price name f df symbol Hq Ec), En. lra.
Qed.

(** The row of a scenario with one shock: the stressed value is the base
    value plus the shock times what the shock reaches. *)
Lemma single_shock_row (portfolio : Portfolio.t) (df : DataFrame)
    (base : Q) (scenario : StressScenario.t) (factor : string) (s : Q) :
  quoted df ->
  base == holdings_value (Portfolio.positions portfolio) df ->
  StressScenario.shocks scenario = [(factor, s)] ->
  exists stressed pnl pct,
    OREAdapter.stress_row portfolio df (Some base) scenario
    = RiskPort.mkStressRow (StressScenario.name scenario) (Some base)
        (Some stressed) (Some pnl) (Some pct) None
    /\ pnl == stressed - base
    /\ pnl == s * (if has_column df factor
                   then symbol_value (Portfolio.positions portfolio) df factor
                   else if String.eqb factor "equity_all" then base else 0)
    /\ (~ base == 0 -> pct == pnl / base)
    /\ (base == 0 -> pct == 0).
Proof.
  intros Hq Hb Hs. unfold OREAdapter.stress_row, OREAdapter._apply_shocks.
  rewrite Hs. cbn [fold_left fst snd].
  set (stressed_data :=
         if has_column df factor
         then OREAdapter.scale_named factor (1 + s) df
         else if String.eqb factor "equity_all"
              then OREAdapter.scale_all (1 + s) df else df).
  assert (Hqs : quoted stressed_data).
  { unfold stressed_data. destruct (has_column df factor);
      [apply scale_named_quoted, Hq |].
    destruct (String.eqb factor "equity_all");
      [apply scale_all_quoted, Hq | exact Hq]. }
  destruct (npv_quoted portfolio stressed_data Hqs) as [v [Hv Ev]].
  rewrite Hv. unfold cell_sub, cell_div. cbn [cell_lift2].
  assert (Epnl : v - base
                 == s * (if has_column df factor
                         then symbol_value (Portfolio.positions portfolio) df
                                factor
                         else if String.eqb factor "equity_all" then base
                              else 0)).
  { unfold stressed_data in Ev.
    destruct (has_column df factor) eqn:Ec.
    - rewrite (holdings_scale_named factor (1 + s) df _ Hq Ec) in Ev.
      rewrite Ev, Hb. ring.
    - destruct (String.eqb factor "equity_all").
      + rewrite (holdings_scale_all (1 + s) df _ Hq) in Ev.
        rewrite Ev, Hb. ring.
      + rewrite Ev, Hb. ring. }
  destruct (Qeqb base 0) eqn:Ez.
  - exists v, (v - base), 0. split; [reflexivity |].
    split; [reflexivity |]. split; [exact Epnl |].
    apply Qeq_bool_iff in Ez. split; [intros H; contradiction | reflexivity].
  - exists v, (v - base), ((v - base) / base). split; [reflexivity |].
    split; [reflexivity |]. split; [exact Epnl |].
    apply Qeq_bool_neq in Ez. split; [reflexivity | intros H; contradiction].
Qed.

Lemma Forall2_map_self {A B : Type} (P : A -> B -> Prop) (f : A -> B)
    (l : list A) :
  (forall x, P x (f x)) -> Forall2 P l (map f l).
Proof.
  intros H. induction l as [| x l IH]; cbn [map]; constructor; auto.
Qed.

(** X9: on a quoted table without a column named equity_all, every
    scenario that only shocks [equity_all] by [s] moves the value of the
    portfolio by the factor [1 + s]: the row reports the stressed value
    [(1 + s) * base], the P&L [s * base] and the relative change [s]
    (0 when the base value is 0), and records no error. *)
Theorem equity_all_shock_scales_value
    (portfolio : Portfolio.t) (df : DataFrame)
    (scenarios : list StressScenario.t) :
  quoted df -> has_column df "equity_all" = false ->
  exists base rows,
    OREAdapter.stress_test portfolio df scenarios = Ok rows
    /\ base == holdings_value (Portfolio.positions portfolio) df
    /\ Forall2
         (fun scenario row =>
            forall s,
              StressScenario.shocks scenario = [("equity_all", s)] ->
              exists stressed pnl pct,
                row = RiskPort.mkStressRow (StressScenario.name scenario)
                        (Some base) (Some stressed) (Some pnl) (Some pct) None
                /\ stressed == (1 + s) * base
                /\ pnl == s * base
                /\ (~ base == 0 -> pct == s)
                /\ (base == 0 -> pct == 0))
         scenarios rows.
Proof.
  intros Hq Hc. destruct (npv_quoted portfolio df Hq) as [base [Hb Eb]].
  exists base, (map (OREAdapter.stress_row portfolio df (Some base)) scenarios).
  unfold OREAdapter.stress_test. rewrite Hb. cbn [bind].
  split; [reflexivity |]. split; [exact Eb |].
  apply Forall2_map_self. intros scenario s Hs.
  destruct (single_shock_row portfolio df base scenario "equity_all" s
              Hq Eb Hs) as [stressed [pnl [pct [Hrow [E1 [E2 [E3 E4]]]]]]].
  rewrite Hc in E2. cbn [String.eqb Ascii.eqb Bool.eqb] in E2.
  exists stressed, pnl, pct. split; [exact Hrow |].
  split; [lra |]. split; [exact E2 |]. split; [| exact E4].
  intros Hz. rewrite (E3 Hz), E2. field. exact Hz.
Qed.

Lemma equity_all_shock_scales_value_witness :
  exists base rows,
    OREAdapter.stress_test Sample.single_portfolio Sample.rising_prices
      [Sample.equity_down_10] = Ok rows
    /\ base == holdings_value (Portfolio.positions Sample.single_portfolio)
                 Sample.rising_prices.
Proof.
  destruct (equity_all_shock_scales_value Sample.single_portfolio
              Sample.rising_prices [Sample.equity_down_10])
    as [base [rows [H1 [H2 _]]]].
  - repeat constructor. eexists. reflexivity.
  - reflexivity.
  - exists base, rows. split; [exact H1 | exact H2].
Defined.

(** X10: in a stress test on a quoted table, a scenario with one shock
    [s] on a factor that names a column moves the value of the portfolio
    by [s] times the value held in that symbol, whatever else the
    portfolio holds. *)
Theorem single_factor_shock
    (portfolio : Portfolio.t) (df : DataFrame)
    (scenarios : list StressScenario.t) :
  quoted df ->
  exists base rows,
    OREAdapter.stress_test portfolio df scenarios = Ok rows
    /\ base == holdings_value (Portfolio.positions portfolio) df
    /\ Forall2
         (fun scenario row =>
            forall factor s,
              StressScenario.shocks scenario = [(factor, s)] ->
              has_column df factor = true ->
              exists stressed pnl pct,
                row = RiskPort.mkStressRow (StressScenario.name scenario)
                        (Some base) (Some stressed) (Some pnl) (Some pct) None
                /\ pnl == s * symbol_value (Portfolio.positions portfolio)
                                df factor
                /\ stressed == base + pnl
                /\ (~ base == 0 -> pct == pnl / base))
         scenarios rows.
Proof.
  intros Hq. destruct (npv_quoted portfolio df Hq) as [base [Hb Eb]].
  exists base, (map (OREAdapter.stress_row portfolio df (Some base)) scenarios).
  unfold OREAdapter.stress_test. rewrite Hb. cbn [bind].
  split; [reflexivity |]. split; [exact Eb |].
  apply Forall2_map_self. intros scenario factor s Hs Hc.
  destruct (single_shock_row portfolio df base scenario factor s
              Hq Eb Hs) as [stressed [pnl [pct [Hrow [E1 [E2 [E3 E4]]]]]]].
  exists stressed, pnl, pct. split; [exact Hrow |].
  rewrite Hc in E2. split; [exact E2 |]. split; [lra | exact E3].
Qed.

Lemma single_factor_shock_witness :
  exists base rows,
    OREAdapter.stress_test Sample.single_portfolio Sample.rising_prices
      [StressScenario.mk "AAPL -20%" [("AAPL", -0.2)] "" 0%Z] = Ok rows
    /\ base == holdings_value (Portfolio.positions Sample.single_portfolio)
                 Sample.rising_prices.
Proof.
  destruct (single_factor_shock Sample.single_portfolio Sample.rising_prices
              [StressScenario.mk "AAPL -20%" [("AAPL", -0.2)] "" 0%Z])
    as [base [rows [H1 [H2 _]]]].
  - repeat constructor. eexists. reflexivity.
  - exists base, rows. split; [exact H1 | exact H2].
Defined.

Lemma apply_shocks_unmatched (df : DataFrame) (scenario : StressScenario.t) :
  (forall factor, In factor (StressScenarioMethods.risk_factors scenario) ->
     has_column df factor = false /\ factor <> "equity_all") ->
  OREAdapter._apply_shocks df scenario = df.
Proof.
  unfold OREAdapter._apply_shocks, StressScenarioMethods.risk_factors, keys.
  induction (StressScenario.shocks scenario) as [| [factor shock] shocks IH];
    intros H; cbn [fold_left fst snd]; [reflexivity |].
  destruct (H factor (or_introl eq_refl)) as [Hc Hne].
  apply String.eqb_neq in Hne. rewrite Hc, Hne.
  apply IH. intros f Hf. apply H. now right.
Qed.

(** X11: a scenario none of whose risk factors names a column of the
    table, nor is [equity_all], changes nothing: its row reports the
    base value as the stressed value, a P&L and a relative change of 0,
    and no error.  The two scenarios the module predefines are
    constructed, and none of their factors is [equity_all]: on a table
    of tickers they are such scenarios. *)
Theorem unmatched_shocks_are_ignored
    (portfolio : Portfolio.t) (df : DataFrame)
    (scenarios : list StressScenario.t) :
  quoted df ->
  (exists base rows,
     OREAdapter.stress_test portfolio df scenarios = Ok rows
     /\ Forall2
          (fun scenario row =>
             (forall factor,
                In factor (StressScenarioMethods.risk_factors scenario) ->
                has_column df factor = false /\ factor <> "equity_all") ->
             exists pnl pct,
               row = RiskPort.mkStressRow (StressScenario.name scenario)
                       (Some base) (Some base) (Some pnl) (Some pct) None
               /\ pnl == 0 /\ pct == 0)
          scenarios rows)
  /\ (exists crisis covid,
        PredefinedScenarios.SCENARIO_2008_CRISIS = Ok crisis
        /\ PredefinedScenarios.SCENARIO_COVID_CRASH = Ok covid
        /\ StressScenarioMethods.risk_factors crisis
           = ["SPX"; "VIX"; "US10Y"; "USDEUR"; "CreditHY"]
        /\ StressScenarioMethods.risk_factors covid
           = ["SPX"; "VIX"; "US10Y"; "CreditIG"]).
Proof.
  intros Hq. split.
  - destruct (npv_quoted portfolio df Hq) as [base [Hb Eb]].
    exists base,
      (map (OREAdapter.stress_row portfolio df (Some base)) scenarios).
    unfold OREAdapter.stress_test. rewrite Hb. cbn [bind].
    split; [reflexivity |].
    apply Forall2_map_self. intros scenario Hun.
    unfold OREAdapter.stress_row.
    rewrite (apply_shocks_unmatched df scenario Hun), Hb.
    unfold cell_sub, cell_div. cbn [cell_lift2].
    destruct (Qeqb base 0) eqn:Ez.
    + exists (base - base), 0. split; [reflexivity |].
      split; [ring | reflexivity].
    + exists (base - base), ((base - base) / base). split; [reflexivity |].
      apply Qeq_bool_neq in Ez. split; [ring | field; exact Ez].
  - eexists. eexists. split; [reflexivity |]. split; [reflexivity |].
    split; reflexivity.
Qed.

Lemma unmatched_shocks_are_ignored_witness :
  exists crisis covid,
    PredefinedScenarios.SCENARIO_2008_CRISIS = Ok crisis
    /\ PredefinedScenarios.SCENARIO_COVID_CRASH = Ok covid.
Proof.
  destruct (proj2 (unmatched_shocks_are_ignored Sample.single_portfolio
                     Sample.rising_prices []
                     ltac:(repeat constructor; eexists; reflexivity)))
    as [crisis [covid [H1 [H2 _]]]].
  exists crisis, covid. split; [exact H1 | exact H2].
Defined.

End Valuation.

(** ** The stress-testing service on the adapter *)

Section StressService.

Variable norm_ppf : Q -> Q.
Variable series_std : list Q -> Q.
Variable today : date.
Variable _generate_report :
  list StressTestingService.StressTestResult -> string -> result string.







End StressService.



(** ** The risk-calculation service on the adapter *)

Section RiskService.

Variable norm_ppf : Q -> Q.
Variable series_std : list Q -> Q.
Variable _load_market_data :
  RiskCalculationService.RiskCalculationRequest -> result DataFrame.
Variable report_port : option (RiskMetrics.t -> string -> result string).



End RiskService.


(** ** The VaR backtest script *)

Section Backtest.

Variable norm_ppf : Q -> Q.
Variable series_std : list Q -> Q.
Variable np_log : Q -> Q.
Variable date_of : string -> date.

Lemma iloc_rows_well_formed (a b : nat) (df : DataFrame) :
  well_formed df -> well_formed (VarBacktestRun.iloc_rows a b df).
Proof.
  unfold well_formed, VarBacktestRun.iloc_rows. cbn [index columns].
  intros H. apply Forall_map. eapply Forall_impl; [| exact H].
  intros [k col] Hc. cbn [snd] in *.
  rewrite !length_firstn, !length_skipn, Hc. reflexivity.
Qed.

Lemma iloc_rows_length (a b : nat) (df : DataFrame) :
  (length (index (VarBacktestRun.iloc_rows a b df)) <= b - a)%nat.
Proof.
  unfold VarBacktestRun.iloc_rows. cbn [index]. rewrite length_firstn. lia.
Qed.

(** A window of [lookback_days] rows never has [lookback_days] returns. *)
Lemma lookback_window_too_short (portfolio : Portfolio.t)
    (market_data : DataFrame) (lookback_days i : nat) :
  well_formed market_data -> (1 <= lookback_days)%nat ->
  (Z.of_nat (length (OREAdapter._calculate_portfolio_returns portfolio
                       (VarBacktestRun.iloc_rows (i - lookback_days) i
                          market_data)
                       (Z.of_nat lookback_days)))
   < Z.of_nat lookback_days)%Z.
Proof.
  intros Hwf Hl.
  pose proof (portfolio_returns_length portfolio
                (VarBacktestRun.iloc_rows (i - lookback_days) i market_data)
                (Z.of_nat lookback_days)
                (iloc_rows_well_formed _ _ _ Hwf)) as H.
  pose proof (iloc_rows_length (i - lookback_days) i market_data). lia.
Qed.

Lemma backtest_day_raises (market_data : DataFrame) (confidence_level : Q)
    (lookback_days : nat) (nav : Q) (i : nat) :
  well_formed market_data -> (1 <= lookback_days)%nat ->
  forall r,
    VarBacktestRun.backtest_day norm_ppf series_std date_of market_data
      confidence_level lookback_days nav i <> Ok r.
Proof.
  intros Hwf Hl r. unfold VarBacktestRun.backtest_day.
  destruct (Portfolio.make _ _ _ _ _) as [portfolio | e]; cbn [bind];
    [| discriminate].
  pose proof (lookback_window_too_short portfolio market_data lookback_days i
                Hwf Hl) as Hshort.
  unfold OREAdapter.calculate_var.
  destruct (for_each [confidence_level] OREAdapter.check_confidence tt);
    cbn [bind]; [| discriminate].
  apply Z.ltb_lt in Hshort. rewrite Hshort. cbn [bind]. discriminate.
Qed.

Lemma dict_set_fresh {V : Type} (k : string) (v : V) (d : dict V) :
  ~ In k (keys d) -> dict_set k v d = d ++ [(k, v)].
Proof.
  unfold keys. induction d as [| [k' v'] d IH]; cbn [map fst dict_set app];
    intros H; [reflexivity |].
  destruct (String.eqb k k') eqn:E.
  - apply String.eqb_eq in E. subst. exfalso. apply H. now left.
  - rewrite <- app_comm_cons. f_equal. apply IH. intros Hin. apply H.
    now right.
Qed.

Lemma fold_dict_set_fresh (v : Q) (symbols : list string) :
  NoDup symbols ->
  forall acc,
    (forall s, In s symbols -> ~ In s (keys acc)) ->
    fold_left (fun weights s => dict_set s v weights) symbols acc
    = acc ++ map (fun s => (s, v)) symbols.
Proof.
  induction 1 as [| s symbols Hs Hnd IH]; intros acc Hacc;
    cbn [fold_left map].
  - now rewrite app_nil_r.
  - rewrite (dict_set_fresh s v acc (Hacc s (or_introl eq_refl))).
    rewrite IH.
    + now rewrite <- app_assoc.
    + intros s' Hs' Hin. unfold keys in Hin. rewrite map_app in Hin.
      apply in_app_or in Hin. destruct Hin as [Hin | [<- | []]].
      * apply (Hacc s'); [now right | exact Hin].
      * contradiction.
Qed.

Lemma Qsum_constant (v : Q) (symbols : list string) :
  Qsum (values (map (fun s => (s, v)) symbols))
  == inject_Z (Z.of_nat (length symbols)) * v.
Proof.
  unfold values. induction symbols as [| s symbols IH].
  - cbn [map Qsum length]. change (inject_Z (Z.of_nat 0)) with 0. ring.
  - cbn [map Qsum snd length]. rewrite IH, Nat2Z.inj_succ.
    unfold Z.succ. rewrite inject_Z_plus. ring.
Qed.

(** The equal-weight portfolio of the loop is always constructed. *)
Lemma equal_weight_portfolio (symbols : list string) (nav : Q) (d : date) :
  NoDup symbols -> 0 <= nav ->
  let weights := VarBacktestRun.equal_weights symbols in
  let positions := map (fun sw => (fst sw, nav * snd sw)) weights in
  Portfolio.make positions weights nav d Portfolio.default_metadata
  = Ok (Portfolio.mk positions weights nav d Portfolio.default_metadata).
Proof.
  intros Hnd Hnav weights positions. unfold Portfolio.make.
  rewrite (proj2 (portfolio_validate_ok
                    (Portfolio.mk positions weights nav d
                       Portfolio.default_metadata))); [reflexivity |].
  cbn [Portfolio.positions Portfolio.weights Portfolio.nav].
  split; [| split; [| exact Hnav]].
  - unfold positions, keys. rewrite map_map. cbn [fst]. intros s. tauto.
  - unfold weights, VarBacktestRun.equal_weights.
    rewrite (fold_dict_set_fresh _ symbols Hnd [] (fun s _ Hin => Hin)).
    rewrite app_nil_l.
    set (n := inject_Z (Z.of_nat (length symbols))).
    assert (Esum : Qsum (values (map (fun s => (s, 1 / n)) symbols))
                   == n * (1 / n)) by apply Qsum_constant.
    destruct symbols as [| s symbols].
    + right. vm_compute. reflexivity.
    + left.
      assert (Hn : ~ n == 0).
      { unfold n. cbn [length]. rewrite Nat2Z.inj_succ.
        intros H. unfold Qeq in H. simpl in H. lia. }
      assert (E : Qsum (values (map (fun s0 => (s0, 1 / n)) (s :: symbols)))
                  - 1 == 0) by (rewrite Esum; field; exact Hn).
      rewrite (Qabs_wd _ _ E). vm_compute. reflexivity.
Qed.

(** X15: on a well-formed table with distinct column names and with a
    look-back of at least one day, [backtest_var_model] never returns a
    result and [main] never returns an exit code: each test day hands
    [calculate_var] exactly [lookback_days] rows, which hold fewer than
    [lookback_days] returns.  With a confidence level inside (0, 1), a
    non-negative NAV and at least one test day, the exception is the
    [InsufficientDataError] of the first test day. *)
Theorem backtest_never_completes
    (market_data : DataFrame) (confidence_level : Q) (lookback_days : nat)
    (nav : Q) :
  well_formed market_data -> NoDup (keys (columns market_data)) ->
  (1 <= lookback_days)%nat ->
  (forall r,
     VarBacktestRun.backtest_var_model norm_ppf series_std np_log date_of
       market_data confidence_level lookback_days nav <> Ok r)
  /\ (forall code,
        VarBacktestRun.main norm_ppf series_std np_log date_of market_data
          confidence_level lookback_days nav <> Ok code)
  /\ (0 < confidence_level -> confidence_level < 1 -> 0 <= nav ->
      (lookback_days + 2 <= length (index market_data))%nat ->
      exists available,
        (available < Z.of_nat lookback_days)%Z
        /\ VarBacktestRun.backtest_var_model norm_ppf series_std np_log
             date_of market_data confidence_level lookback_days nav
           = Raise (InsufficientDataError (Z.of_nat lookback_days) available)).
Proof.
  intros Hwf Hnd Hl.
  assert (Hnever : forall r,
            VarBacktestRun.backtest_var_model norm_ppf series_std np_log
              date_of market_data confidence_level lookback_days nav
            <> Ok r).
  { intros r. unfold VarBacktestRun.backtest_var_model.
    destruct (_ && _); cbn [bind]; [| discriminate].
    destruct (length (index market_data) - 1 - lookback_days)%nat
      as [| n]; cbn [seq for_each bind]; [discriminate |].
    destruct (VarBacktestRun.backtest_day norm_ppf series_std date_of
                market_data confidence_level lookback_days nav lookback_days)
      as [r0 |] eqn:E; cbn [bind]; [| discriminate].
    exfalso. apply (backtest_day_raises _ _ _ _ _ Hwf Hl r0 E). }
  split; [exact Hnever |]. split.
  - intros code. unfold VarBacktestRun.main.
    pose proof Hnever as Hn.
    destruct (VarBacktestRun.backtest_var_model norm_ppf series_std np_log
                date_of market_data confidence_level lookback_days nav)
      as [r |]; cbn [bind]; [| discriminate].
    exfalso. apply (Hn r eq_refl).
  - intros Hc0 Hc1 Hnav Hlen.
    unfold VarBacktestRun.backtest_var_model.
    assert (Hb : ((lookback_days <? length (index market_data))%nat
                  && (2 <=? length (index market_data))%nat) = true).
    { apply andb_true_iff. split; [apply Nat.ltb_lt | apply Nat.leb_le]; lia. }
    rewrite Hb. cbn [bind].
    destruct (length (index market_data) - 1 - lookback_days)%nat
      as [| n] eqn:En; [lia |].
    cbn [seq for_each]. unfold VarBacktestRun.backtest_day at 1.
    rewrite (equal_weight_portfolio _ nav _ Hnd Hnav). cbn [bind].
    set (portfolio := Portfolio.mk _ _ nav _ _).
    pose proof (lookback_window_too_short portfolio market_data lookback_days
                  lookback_days Hwf Hl) as Hshort.
    unfold OREAdapter.calculate_var.
    rewrite (levels_checked [confidence_level]);
      [| constructor; [split; assumption | constructor]].
    cbn [bind]. pose proof Hshort as Hshort'.
    apply Z.ltb_lt in Hshort'. rewrite Hshort'. cbn [bind].
    eexists. split; [exact Hshort | reflexivity].
Qed.

Lemma transitions_counts (breaches : list bool) :
  forall prev acc,
    let t := VarBacktest.transitions prev breaches acc in
    let count := fun l : list bool => length (filter (fun b => b) l) in
    (VarBacktest.n00 t + VarBacktest.n01 t + VarBacktest.n10 t
     + VarBacktest.n11 t
     = VarBacktest.n00 acc + VarBacktest.n01 acc + VarBacktest.n10 acc
       + VarBacktest.n11 acc + length breaches)%nat
    /\ (VarBacktest.n01 t + VarBacktest.n11 t
        = VarBacktest.n01 acc + VarBacktest.n11 acc + count breaches)%nat
    /\ (VarBacktest.n10 t + VarBacktest.n11 t
        = VarBacktest.n10 acc + VarBacktest.n11 acc
          + count (removelast (prev :: breaches)))%nat.
Proof.
  induction breaches as [| cur rest IH]; intros prev acc.
  - cbn. lia.
  - cbn [VarBacktest.transitions].
    specialize (IH cur
      (match prev, cur with
       | false, false =>
           VarBacktest.mkIndependence (S (VarBacktest.n00 acc))
             (VarBacktest.n01 acc) (VarBacktest.n10 acc) (VarBacktest.n11 acc)
       | false, true =>
           VarBacktest.mkIndependence (VarBacktest.n00 acc)
             (S (VarBacktest.n01 acc)) (VarBacktest.n10 acc)
             (VarBacktest.n11 acc)
       | true, false =>
           VarBacktest.mkIndependence (VarBacktest.n00 acc)
             (VarBacktest.n01 acc) (S (VarBacktest.n10 acc))
             (VarBacktest.n11 acc)
       | true, true =>
           VarBacktest.mkIndependence (VarBacktest.n00 acc)
             (VarBacktest.n01 acc) (VarBacktest.n10 acc)
             (S (VarBacktest.n11 acc))
       end)).
    cbv zeta in IH. destruct IH as [H1 [H2 H3]].
    change (removelast (prev :: cur :: rest))
      with (prev :: removelast (cur :: rest)).
    cbn [length filter].
    destruct prev, cur; cbn [VarBacktest.n00 VarBacktest.n01 VarBacktest.n10
                             VarBacktest.n11 length] in *; lia.
Qed.

(** X16: the four transition counts of the independence test add up to
    the number of test days less one; the transitions into a breach
    count the breaches after the first day, those out of a breach the
    breaches before the last day, so the numbers of 0-to-1 and 1-to-0
    transitions differ by at most one. *)
Theorem independence_counts (breaches : list bool) :
  let t := VarBacktest.independence_test breaches in
  let count := fun l : list bool => length (filter (fun b => b) l) in
  (VarBacktest.n00 t + VarBacktest.n01 t + VarBacktest.n10 t
   + VarBacktest.n11 t = length breaches - 1)%nat
  /\ (VarBacktest.n01 t + VarBacktest.n11 t = count (tl breaches))%nat
  /\ (VarBacktest.n10 t + VarBacktest.n11 t = count (removelast breaches))%nat
  /\ (VarBacktest.n01 t <= VarBacktest.n10 t + 1)%nat
  /\ (VarBacktest.n10 t <= VarBacktest.n01 t + 1)%nat.
Proof.
  intros t count. unfold t, VarBacktest.independence_test.
  destruct breaches as [| b rest]; [cbn; lia |].
  destruct (transitions_counts rest b (VarBacktest.mkIndependence 0 0 0 0))
    as [H1 [H2 H3]].
  cbn [VarBacktest.n00 VarBacktest.n01 VarBacktest.n10 VarBacktest.n11
       Nat.add] in H1, H2, H3.
  cbn [length tl]. fold count in H2, H3.
  assert (Hc : (count (removelast (b :: rest)) + (if last rest b then 1 else 0)
                = count (b :: rest))%nat).
  { clear. unfold count. revert b.
    induction rest as [| c rest IH]; intros b.
    - cbn. destruct b; reflexivity.
    - change (removelast (b :: c :: rest))
        with (b :: removelast (c :: rest)).
      specialize (IH c).
      assert (El : last (c :: rest) b = last rest c).
      { clear. revert b c. induction rest as [| d rest IH]; intros b c;
          [reflexivity |].
        change (last (d :: rest) b = last (d :: rest) c).
        now rewrite (IH b d), (IH c d). }
      rewrite El.
      assert (Hcons : forall (x : bool) l,
                length (filter (fun b => b) (x :: l))
                = ((if x then 1 else 0)
                   + length (filter (fun b => b) l))%nat)
        by (intros [] l; reflexivity).
      rewrite (Hcons b (removelast (c :: rest))), (Hcons b (c :: rest)).
      rewrite <- IH. symmetry. apply Nat.add_assoc. }
  assert (Hb : (count (b :: rest) = (if b then 1 else 0) + count rest)%nat).
  { unfold count. cbn [filter]. destruct b; reflexivity. }
  unfold count in *. cbv beta in *.
  set (A := length (filter (fun b => b) rest)) in *.
  set (B := length (filter (fun b => b) (removelast (b :: rest)))) in *.
  set (C := length (filter (fun b => b) (b :: rest))) in *.
  set (T := VarBacktest.transitions b rest _) in *.
  clearbody A B C T.
  destruct (last rest b), b; repeat split; lia.
Qed.

End Backtest.

Lemma backtest_never_completes_witness :
  exists available,
    (available < 2)%Z
    /\ VarBacktestRun.backtest_var_model Sample.ppf Sample.std (fun x => x)
         (fun _ => 0%Z) Sample.rising_prices 0.95 2 100
       = Raise (InsufficientDataError 2 available).
Proof.
  refine (proj2 (proj2 (backtest_never_completes Sample.ppf Sample.std
                          (fun x => x) (fun _ => 0%Z) Sample.rising_prices
                          0.95 2 100 _ _ _)) _ _ _ _).
  - repeat constructor.
  - repeat constructor; simpl; intuition discriminate.
  - lia.
  - reflexivity.
  - reflexivity.
  - vm_compute. discriminate.
  - simpl. lia.
Defined.

(** ** Historical VaR and CVaR inside the observed range *)

Section Range.

Variable norm_ppf : Q -> Q.
Variable series_std : list Q -> Q.









End Range.


(** ** The order of the checks of [calculate_var] *)

Section Checks.

Variable norm_ppf : Q -> Q.
Variable series_std : list Q -> Q.

Lemma first_bad_level (good rest : list Q) (c : Q) :
  Forall (fun c => 0 < c /\ c < 1) good -> ~ (0 < c /\ c < 1) ->
  for_each (good ++ c :: rest) OREAdapter.check_confidence tt
  = Raise (ValueError (ConfidenceOutOfRange c)).
Proof.
  intros Hgood Hbad. induction Hgood as [| g good [Hg0 Hg1] _ IH].
  - rewrite app_nil_l. cbn [for_each].
    unfold OREAdapter.check_confidence at 1.
    destruct (Qltb 0 c) eqn:E0; destruct (Qltb c 1) eqn:E1;
      cbn [andb bind]; try reflexivity.
    exfalso. apply Hbad. split; apply Qltb_lt; assumption.
  - rewrite <- app_comm_cons. cbn [for_each].
    rewrite (check_confidence_ok g Hg0 Hg1). cbn [bind]. exact IH.
Qed.

(** X18: [calculate_var] checks the confidence levels first, then the
    data, then the method: the first level outside (0, 1) is reported
    whatever the data and the method; with valid levels a short return
    series is reported whatever the method; and an unknown method is
    reported only when the levels are valid and the data suffices. *)
Theorem calculate_var_checks_in_order
    (portfolio : Portfolio.t) (market_data : DataFrame) (method : string)
    (levels : option (list Q)) (window_days : Z) :
  let confidence_levels :=
    match levels with None => OREAdapter.default_levels | Some l => l end in
  let available :=
    Z.of_nat (length (OREAdapter._calculate_portfolio_returns portfolio
                        market_data window_days)) in
  let var_result :=
    OREAdapter.calculate_var norm_ppf series_std portfolio market_data
      method levels window_days in
  (forall good c rest,
     confidence_levels = good ++ c :: rest ->
     Forall (fun c => 0 < c /\ c < 1) good -> ~ (0 < c /\ c < 1) ->
     var_result = Raise (ValueError (ConfidenceOutOfRange c)))
  /\ (Forall (fun c => 0 < c /\ c < 1) confidence_levels ->
      ((available < window_days)%Z ->
       var_result = Raise (InsufficientDataError window_days available))
      /\ ((window_days <= available)%Z ->
          method <> "historical" -> method <> "parametric" ->
          var_result = Raise (ValueError (UnknownVaRMethod method)))).
Proof.
  intros confidence_levels available var_result.
  unfold var_result, OREAdapter.calculate_var.
  fold confidence_levels available. split.
  - intros good c rest E Hgood Hbad.
    rewrite E, (first_bad_level good rest c Hgood Hbad). reflexivity.
  - intros Hlev. rewrite (levels_checked _ Hlev). cbn [bind]. split.
    + intros H. apply Z.ltb_lt in H. now rewrite H.
    + intros H Hh Hp. apply Z.ltb_ge in H. rewrite H.
      apply String.eqb_neq in Hh, Hp. now rewrite Hh, Hp.
Qed.

End Checks.

Lemma calculate_var_checks_in_order_witness :
  OREAdapter.calculate_var Sample.ppf Sample.std Sample.single_portfolio
    Sample.rising_prices "monte_carlo" (Some [0.95; 1.5; 2]) 250
  = Raise (ValueError (ConfidenceOutOfRange 1.5)).
Proof.
  refine (proj1 (calculate_var_checks_in_order Sample.ppf Sample.std
                   Sample.single_portfolio Sample.rising_prices "monte_carlo"
                   (Some [0.95; 1.5; 2]) 250) [0.95] 1.5 [2] eq_refl _ _).
  - repeat constructor.
  - intros [_ H]. revert H. vm_compute. discriminate.
Defined.

(** ** What shocks leave as it is *)

Section Shape.

Variable R : cell -> cell -> Prop.
Hypothesis R_refl : forall c, R c c.
Hypothesis R_trans : forall a b c, R a b -> R b c -> R a c.

Lemma Forall2_refl_on {A : Type} (P : A -> A -> Prop) (l : list A) :
  (forall x, P x x) -> Forall2 P l l.
Proof. intros H. induction l; constructor; auto. Qed.

Lemma Forall2_compose {A : Type} (P : A -> A -> Prop) :
  (forall a b c, P a b -> P b c -> P a c) ->
  forall l1 l2 l3, Forall2 P l1 l2 -> Forall2 P l2 l3 -> Forall2 P l1 l3.
Proof.
  intros Ht l1 l2 l3 H12. revert l3.
  induction H12 as [| a b l1 l2 Hab _ IH]; intros l3 H23;
    inversion H23; subst; constructor; eauto.
Qed.

Lemma frame_rel_refl (df : DataFrame) : frame_rel R df df.
Proof.
  split; [reflexivity |]. apply Forall2_refl_on. intros c.
  split; [reflexivity | apply Forall2_refl_on, R_refl].
Qed.

Lemma frame_rel_trans (df1 df2 df3 : DataFrame) :
  frame_rel R df1 df2 -> frame_rel R df2 df3 -> frame_rel R df1 df3.
Proof.
  intros [Hi1 Hc1] [Hi2 Hc2]. split; [congruence |].
  eapply Forall2_compose; [| exact Hc1 | exact Hc2].
  intros a b c [Hab Rab] [Hbc Rbc]. split; [congruence |].
  eapply Forall2_compose; [exact R_trans | exact Rab | exact Rbc].
Qed.

Lemma scale_column_rel (f : Q) (col : list cell) :
  (forall c, R c (cell_mul c (Some f))) ->
  Forall2 R col (OREAdapter.scale_column f col).
Proof.
  intros H. unfold OREAdapter.scale_column.
  induction col; cbn [map]; constructor; auto.
Qed.

Lemma scale_all_rel (f : Q) (df : DataFrame) :
  (forall c, R c (cell_mul c (Some f))) ->
  frame_rel R df (OREAdapter.scale_all f df).
Proof.
  intros H. split; [reflexivity |]. unfold OREAdapter.scale_all.
  cbn [columns]. induction (columns df) as [| c cols IH]; cbn [map];
    constructor; [| exact IH].
  split; [reflexivity | apply scale_column_rel, H].
Qed.

Lemma scale_named_rel (name : string) (f : Q) (df : DataFrame) :
  (forall c, R c (cell_mul c (Some f))) ->
  frame_rel R df (OREAdapter.scale_named name f df).
Proof.
  intros H. split; [reflexivity |]. unfold OREAdapter.scale_named.
  cbn [columns]. induction (columns df) as [| c cols IH]; cbn [map];
    constructor; [| exact IH].
  destruct (String.eqb (fst c) name).
  - split; [reflexivity | apply scale_column_rel, H].
  - split; [reflexivity | apply Forall2_refl_on, R_refl].
Qed.

Lemma apply_shocks_rel (scenario : StressScenario.t) (df : DataFrame) :
  (forall factor shock,
     In (factor, shock) (StressScenario.shocks scenario) ->
     forall c, R c (cell_mul c (Some (1 + shock)))) ->
  frame_rel R df (OREAdapter._apply_shocks df scenario).
Proof.
  unfold OREAdapter._apply_shocks.
  generalize (StressScenario.shocks scenario). intros shocks. revert df.
  induction shocks as [| [factor shock] shocks IH]; intros df H;
    cbn [fold_left fst snd].
  - apply frame_rel_refl.
  - assert (Hs : forall c, R c (cell_mul c (Some (1 + shock))))
      by (apply (H factor shock); now left).
    eapply frame_rel_trans; [| apply IH; intros f s Hin; apply (H f s);
                                now right].
    destruct (has_column df factor); [apply scale_named_rel, Hs |].
    destruct (String.eqb factor "equity_all");
      [apply scale_all_rel, Hs | apply frame_rel_refl].
Qed.

End Shape.

(** X19: whatever the scenario, [_apply_shocks] returns a table with the
    rows and the columns of the one it was given, in the same order and
    with NaN in the same cells; and when every shock of the scenario is
    zero, every cell keeps its value. *)
Theorem shocks_keep_the_table_shape
    (df : DataFrame) (scenario : StressScenario.t) :
  frame_rel same_nan df (OREAdapter._apply_shocks df scenario)
  /\ ((forall factor shock,
         In (factor, shock) (StressScenario.shocks scenario) -> shock == 0) ->
      frame_rel cell_eq df (OREAdapter._apply_shocks df scenario)).
Proof.
  split.
  - apply apply_shocks_rel.
    + intros c. unfold same_nan. tauto.
    + unfold same_nan. intros a b c H1 H2. tauto.
    + intros factor shock _ [x |]; unfold same_nan; cbn; split; congruence.
  - intros Hz. apply apply_shocks_rel.
    + intros [x |]; cbn [cell_eq]; [reflexivity | exact I].
    + intros [x |] [y |] [z |]; cbn [cell_eq]; try tauto.
      intros H1 H2. now rewrite H1.
    + intros factor shock Hin [x |]; cbn [cell_eq cell_mul cell_lift2];
        [| exact I].
      rewrite (Hz factor shock Hin). ring.
Qed.

Lemma shocks_keep_the_table_shape_witness :
  frame_rel cell_eq Sample.prices
    (OREAdapter._apply_shocks Sample.prices
       (StressScenario.mk "Flat" [("equity_all", 0); ("AAPL", 0)] "" 0%Z)).
Proof.
  refine (proj2 (shocks_keep_the_table_shape Sample.prices
                   (StressScenario.mk "Flat" [("equity_all", 0); ("AAPL", 0)]
                      "" 0%Z)) _).
  intros factor shock [H | [H | []]]; injection H as _ <-; reflexivity.
Defined.

(** ** Greeks are best effort *)

Section BestEffort.

Variable risk_port : RiskPort.t.
Variable _load_market_data :
  RiskCalculationService.RiskCalculationRequest -> result DataFrame.
Variable report_port : option (RiskMetrics.t -> string -> result string).

(** X20: with any risk engine, when [compute_greeks] raises on the
    loaded table, a request that asks for Greeks gets what the same
    request without Greeks gets, the same exception or the same metrics
    and report, with the one warning added; a failure of
    [calculate_cvar] is not downgraded. *)
Theorem greeks_failure_is_a_warning
    (portfolio : Portfolio.t) (version : string)
    (methods : option (list string)) (levels : option (list Q))
    (window_days : Z) (generate_report : bool) (output_dir : string)
    (market_data : DataFrame) (e : exn) :
  let request := fun compute_greeks =>
    RiskCalculationService.mkRequest portfolio version methods levels
      window_days compute_greeks generate_report output_dir in
  _load_market_data (request true) = Ok market_data ->
  _load_market_data (request false) = Ok market_data ->
  (RiskPort.compute_greeks risk_port portfolio market_data = Raise e ->
   RiskCalculationService.calculate risk_port _load_market_data report_port
     (request true)
   = match RiskCalculationService.calculate risk_port _load_market_data
             report_port (request false) with
     | Ok response =>
         Ok (RiskCalculationService.mkResponse
               (RiskCalculationService.metrics response)
               (RiskCalculationService.report_path response)
               [RiskCalculationService.GreeksFailed e])
     | Raise x => Raise x
     end)
  /\ (forall compute_greeks params,
        RiskPort.calculate_cvar risk_port portfolio market_data params
        = Raise e ->
        params
        = Some (RiskPort.mkVarParams
                  (Some (hd "historical"
                           (RiskCalculationService.or_default methods
                              ["historical"])))
                  (Some (RiskCalculationService.or_default levels
                           [0.95; 0.99]))
                  (Some window_days)) ->
        forall response,
          RiskCalculationService.calculate risk_port _load_market_data
            report_port (request compute_greeks) <> Ok response).
Proof.
  intros request Ht Hf. split.
  - intros Hg. unfold RiskCalculationService.calculate,
      RiskCalculationService.var_step.
    rewrite Ht, Hf. unfold request.
    cbn [bind RiskCalculationService.portfolio
         RiskCalculationService.methods
         RiskCalculationService.confidence_levels
         RiskCalculationService.window_days
         RiskCalculationService.compute_greeks
         RiskCalculationService.generate_report
         RiskCalculationService.output_dir
         RiskCalculationService.market_data_version].
    rewrite Hg.
    match goal with
    | |- context [for_each ?ms ?body (@nil (string * Q))] =>
        destruct (for_each ms body (@nil (string * Q))) as [var_results |]
    end; cbn [bind]; [| reflexivity].
    destruct (RiskPort.calculate_cvar _ _ _ _) as [cvar_results |];
      cbn [bind]; [| reflexivity].
    unfold RiskMetrics.make.
    destruct (RiskMetrics._validate_invariants _); cbn [bind];
      [| reflexivity].
    destruct generate_report; [| reflexivity].
    destruct report_port as [generate |]; [| reflexivity].
    destruct (generate _ _); reflexivity.
  - intros compute_greeks params Hc -> response.
    unfold RiskCalculationService.calculate,
      RiskCalculationService.var_step.
    destruct compute_greeks; [rewrite Ht | rewrite Hf]; unfold request;
      cbn [bind RiskCalculationService.portfolio
           RiskCalculationService.methods
           RiskCalculationService.confidence_levels
           RiskCalculationService.window_days];
      (match goal with
       | |- context [for_each ?ms ?body (@nil (string * Q))] =>
           destruct (for_each ms body (@nil (string * Q)))
             as [var_results |]
       end; cbn [bind]; [| discriminate]); rewrite Hc; discriminate.
Qed.

End BestEffort.

Lemma greeks_failure_is_a_warning_witness :
  RiskCalculationService.calculate
    (RiskPort.mk (OREAdapter.calculate_var Sample.ppf Sample.std)
       OREAdapter.calculate_cvar (fun _ _ => Raise IndexError)
       OREAdapter.stress_test OREAdapter.value_portfolio)
    (fun _ => Ok Sample.rising_prices) None
    (RiskCalculationService.mkRequest Sample.single_portfolio "v1" None None
       3 true false "out")
  = match RiskCalculationService.calculate
            (RiskPort.mk (OREAdapter.calculate_var Sample.ppf Sample.std)
               OREAdapter.calculate_cvar (fun _ _ => Raise IndexError)
               OREAdapter.stress_test OREAdapter.value_portfolio)
            (fun _ => Ok Sample.rising_prices) None
            (RiskCalculationService.mkRequest Sample.single_portfolio "v1"
               None None 3 false false "out") with
    | Ok response =>
        Ok (RiskCalculationService.mkResponse
              (RiskCalculationService.metrics response)
              (RiskCalculationService.report_path response)
              [RiskCalculationService.GreeksFailed IndexError])
    | Raise x => Raise x
    end.
Proof.
  refine (proj1 (greeks_failure_is_a_warning
                   (RiskPort.mk (OREAdapter.calculate_var Sample.ppf Sample.std)
                      OREAdapter.calculate_cvar (fun _ _ => Raise IndexError)
                      OREAdapter.stress_test OREAdapter.value_portfolio)
                   (fun _ => Ok Sample.rising_prices) None
                   Sample.single_portfolio "v1" None None 3 false "out"
                   Sample.rising_prices IndexError _ _) _); reflexivity.
Defined.

(** ** The returns of a single symbol *)

Section SingleSymbol.

Lemma dropna_from_somes (vals : list Q) (k : nat) :
  dropna_from k (map Some vals) = combine (seq k (length vals)) vals.
Proof.
  revert k. induction vals as [| v vals IH]; intros k; [reflexivity |].
  cbn [map dropna_from length seq combine]. now rewrite IH.
Qed.

Lemma pct_change_from_nonzero (vals : list Q) (prev : Q) (k : nat) :
  Forall (fun v => ~ v == 0) vals ->
  pct_change_from prev (combine (seq k (length vals)) vals)
  = combine (seq k (length vals)) (changes_from prev vals).
Proof.
  intros H. revert prev k.
  induction H as [| v vals Hv _ IH]; intros prev k; [reflexivity |].
  cbn [length seq combine pct_change_from changes_from].
  assert (E : Qeqb v 0 = false).
  { unfold Qeqb. destruct (Qeq_bool v 0) eqn:E; [| reflexivity].
    apply Qeq_bool_iff in E. contradiction. }
  rewrite E, andb_false_r, IH. reflexivity.
Qed.

Lemma changes_from_length (vals : list Q) (prev : Q) :
  length (changes_from prev vals) = length vals.
Proof.
  revert prev. induction vals as [| v vals IH]; intros prev; [reflexivity |].
  cbn [changes_from length]. now rewrite IH.
Qed.

Lemma series_get_combine (rs : list Q) (k i : nat) :
  series_get i (combine (seq k (length rs)) rs)
  = if (k <=? i)%nat && (i <? k + length rs)%nat
    then Some (nth (i - k) rs 0) else None.
Proof.
  unfold series_get. revert k.
  induction rs as [| r rs IH]; intros k.
  - cbn [length seq combine find]. rewrite Nat.add_0_r.
    destruct (k <=? i)%nat eqn:E1; destruct (i <? k)%nat eqn:E2;
      try reflexivity.
    apply Nat.leb_le in E1. apply Nat.ltb_lt in E2. lia.
  - cbn [length seq combine find fst].
    destruct (Nat.eqb k i) eqn:E.
    + apply Nat.eqb_eq in E. subst i.
      rewrite Nat.leb_refl, Nat.sub_diag.
      replace (k <? k + S (length rs))%nat with true
        by (symmetry; apply Nat.ltb_lt; lia).
      reflexivity.
    + apply Nat.eqb_neq in E. rewrite IH.
      destruct (S k <=? i)%nat eqn:E1.
      * apply Nat.leb_le in E1.
        replace (k <=? i)%nat with true by (symmetry; apply Nat.leb_le; lia).
        replace (S k + length rs)%nat with (k + S (length rs))%nat by lia.
        destruct (i <? k + S (length rs))%nat; cbn [andb]; [| reflexivity].
        replace (i - k)%nat with (S (i - S k)) by lia. reflexivity.
      * apply Nat.leb_gt in E1. cbn [andb].
        replace (k <=? i)%nat with false
          by (symmetry; apply Nat.leb_gt; lia).
        reflexivity.
Qed.

Lemma series_bound_combine (rs : list Q) (k : nat) :
  rs <> [] ->
  series_bound (combine (seq k (length rs)) rs) = (k + length rs)%nat.
Proof.
  unfold series_bound. revert k.
  induction rs as [| r rs IH]; intros k Hne; [congruence |].
  cbn [length seq combine fold_right fst].
  destruct rs as [| r' rs'].
  - cbn [length seq combine fold_right]. lia.
  - rewrite (IH (S k)); [| discriminate]. cbn [length]. lia.
Qed.

Lemma nth_seq_map (rs : list Q) (k : nat) :
  map (fun i => nth (i - k) rs 0) (seq k (length rs)) = rs.
Proof.
  revert k. induction rs as [| r rs IH]; intros k; [reflexivity |].
  cbn [length seq map]. rewrite Nat.sub_diag. cbn [nth]. f_equal.
  rewrite <- (IH (S k)) at 2. apply map_ext_in. intros i Hi.
  apply in_seq in Hi. replace (i - k)%nat with (S (i - S k)) by lia.
  reflexivity.
Qed.

Lemma tail_map {A B : Type} (f : A -> B) (n : Z) (l : list A) :
  tail n (map f l) = map f (tail n l).
Proof.
  unfold tail. rewrite length_map.
  destruct (n =? 0)%Z; [reflexivity |].
  destruct (0 <? n)%Z; apply skipn_map.
Qed.

Lemma no_column (df : DataFrame) (name : string) :
  has_column df name = false -> column df name = None.
Proof.
  unfold has_column, dict_mem, column.
  now destruct (dict_get name (columns df)).
Qed.

(** The series the first loop collects when one weighted symbol is a
    column and the others are not. *)
Lemma returns_data_single (market_data : DataFrame) (symbol : string)
    (col : list cell) (symbols : list string) :
  column market_data symbol = Some col ->
  (1 <? length (dropna col))%nat = true ->
  (forall other, In other symbols -> other <> symbol ->
     has_column market_data other = false) ->
  forall acc,
    (acc = [(symbol, pct_change_dropna (dropna col))]
     \/ (acc = [] /\ In symbol symbols)) ->
    fold_left
      (fun acc symbol =>
         match column market_data symbol with
         | Some col =>
             let prices := dropna col in
             if (1 <? length prices)%nat then
               dict_set symbol (pct_change_dropna prices) acc
             else acc
         | None => acc
         end) symbols acc
    = [(symbol, pct_change_dropna (dropna col))].
Proof.
  intros Hcol Hlen.
  induction symbols as [| t symbols IH]; intros Hother acc Hacc;
    cbn [fold_left].
  - destruct Hacc as [-> | [_ []]]. reflexivity.
  - assert (Hrest : forall o, In o symbols -> o <> symbol ->
                      has_column market_data o = false)
      by (intros o Ho; apply Hother; now right).
    destruct (String.eqb t symbol) eqn:E.
    + apply String.eqb_eq in E. subst t. rewrite Hcol. cbv zeta.
      rewrite Hlen. apply (IH Hrest). left.
      destruct Hacc as [-> | [-> _]]; cbn [dict_set];
        [now rewrite String.eqb_refl | reflexivity].
    + apply String.eqb_neq in E.
      rewrite (no_column _ _ (Hother t (or_introl eq_refl) E)).
      apply (IH Hrest).
      destruct Hacc as [-> | [-> [Ht | Hin]]];
        [now left | congruence | now right].
Qed.

(** X21: when one weighted symbol has a price on every row, none of them
    zero, and no other weighted symbol is a column of the table, the
    portfolio returns are that symbol's weight times its day-over-day
    simple returns, the last [window_days] of them: the weights of the
    symbols the table lacks are dropped, and nothing is rescaled. *)
Theorem single_symbol_returns
    (portfolio : Portfolio.t) (market_data : DataFrame) (window_days : Z)
    (symbol : string) (weight : Q) (prices : list Q) :
  dict_get symbol (Portfolio.weights portfolio) = Some weight ->
  (forall other, In other (keys (Portfolio.weights portfolio)) ->
     other <> symbol -> has_column market_data other = false) ->
  column market_data symbol = Some (map Some prices) ->
  Forall (fun v => ~ v == 0) prices ->
  (2 <= length prices)%nat ->
  OREAdapter._calculate_portfolio_returns portfolio market_data window_days
  = tail window_days
      (map (fun r => r * weight + 0) (simple_returns prices)).
Proof.
  intros Hw Hother Hcol Hnz Hlen.
  unfold OREAdapter._calculate_portfolio_returns. cbv zeta.
  assert (Hin : In symbol (keys (Portfolio.weights portfolio)))
    by (apply dict_get_In; eauto).
  assert (Hl : (1 <? length (dropna (map Some prices)))%nat = true).
  { unfold dropna. rewrite dropna_from_somes, length_combine, length_seq,
      Nat.min_id. apply Nat.ltb_lt. lia. }
  pose proof (returns_data_single market_data symbol (map Some prices)
                (keys (Portfolio.weights portfolio)) Hcol Hl Hother []
                (or_intror (conj eq_refl Hin))) as Hdata.
  cbv zeta in Hdata. rewrite Hdata. clear Hdata.
  unfold dropna. rewrite dropna_from_somes.
  destruct prices as [| v0 rest]; [cbn [length] in Hlen; lia |].
  destruct rest as [| v1 rest]; [cbn [length] in Hlen; lia |].
  cbn [length seq combine pct_change_dropna].
  change ((1%nat, v1) :: combine (seq 2 (length rest)) rest)
    with (combine (seq 1 (length (v1 :: rest))) (v1 :: rest)).
  inversion Hnz as [| ? ? _ Hnz']; subst.
  rewrite (pct_change_from_nonzero (v1 :: rest) v0 1 Hnz').
  cbn [simple_returns].
  set (rs := changes_from v0 (v1 :: rest)).
  assert (Hrs : length rs = length (v1 :: rest))
    by apply changes_from_length.
  rewrite <- Hrs.
  assert (Hne : rs <> []) by (unfold rs; cbn [changes_from]; discriminate).
  set (series := combine (seq 1 (length rs)) rs).
  assert (Hrows : frame_rows [(symbol, series)] = seq 1 (length rs)).
  { unfold frame_rows. cbn [fold_right snd].
    unfold series. rewrite (series_bound_combine rs 1 Hne).
    rewrite Nat.max_0_r. cbn [Nat.add seq filter existsb snd].
    rewrite series_get_combine. cbn [Nat.leb andb orb].
    apply forallb_filter_id. apply forallb_forall. intros i Hi.
    apply in_seq in Hi. rewrite series_get_combine.
    replace (1 <=? i)%nat with true by (symmetry; apply Nat.leb_le; lia).
    replace (i <? 1 + length rs)%nat with true
      by (symmetry; apply Nat.ltb_lt; lia).
    reflexivity. }
  unfold frame_of_series.
  replace (frame_rows _) with (seq 1 (length rs))
    by (symmetry; exact Hrows).
  cbn [keys map fst filter].
  unfold dict_mem. rewrite Hw.
  rewrite <- tail_map, map_map. f_equal.
  rewrite <- (nth_seq_map rs 1) at 2. rewrite map_map.
  apply map_ext_in. intros i Hi. apply in_seq in Hi.
  unfold weighted_row_sum. cbn [map fst snd dict_get Qsum].
  rewrite String.eqb_refl, Hw. unfold series. rewrite series_get_combine.
  replace (1 <=? i)%nat with true by (symmetry; apply Nat.leb_le; lia).
  replace (i <? 1 + length rs)%nat with true
    by (symmetry; apply Nat.ltb_lt; lia).
  reflexivity.
Qed.

End SingleSymbol.

Lemma single_symbol_returns_witness :
  OREAdapter._calculate_portfolio_returns Sample.portfolio
    Sample.rising_prices 2
  = tail 2 (map (fun r => r * 0.5 + 0) (simple_returns [100; 110; 132; 171.6])).
Proof.
  apply (single_symbol_returns Sample.portfolio Sample.rising_prices 2
           "AAPL" 0.5 [100; 110; 132; 171.6]).
  - reflexivity.
  - intros other [<- | [<- | []]] H; [now elim H | reflexivity].
  - reflexivity.
  - repeat constructor; discriminate.
  - simpl. lia.
Defined.

(** ** A portfolio the table does not quote *)

Section Unquoted.

Variable norm_ppf : Q -> Q.
Variable series_std : list Q -> Q.

Lemma returns_data_unquoted (market_data : DataFrame) (symbols : list string) :
  (forall symbol, In symbol symbols -> has_column market_data symbol = false) ->
  fold_left
    (fun (acc : dict series) symbol =>
       match column market_data symbol with
       | Some col =>
           let prices := dropna col in
           if (1 <? length prices)%nat then
             dict_set symbol (pct_change_dropna prices) acc
           else acc
       | None => acc
       end) symbols []
  = [].
Proof.
  induction symbols as [| t symbols IH]; intros H; cbn [fold_left];
    [reflexivity |].
  rewrite (no_column _ _ (H t (or_introl eq_refl))).
  apply IH. intros s Hs. apply H. now right.
Qed.

(** X22: when no weighted symbol is a column of the table, the portfolio
    has no returns at all, and for a window of at least one day both
    [calculate_cvar] and, once its confidence levels are valid,
    [calculate_var] report insufficient data with 0 days available: the
    missing symbols themselves are not reported. *)
Theorem unquoted_portfolio_has_no_returns
    (portfolio : Portfolio.t) (market_data : DataFrame) (method : string)
    (cvar_method : option string) (levels : option (list Q))
    (window_days : Z) :
  (forall symbol, In symbol (keys (Portfolio.weights portfolio)) ->
     has_column market_data symbol = false) ->
  OREAdapter._calculate_portfolio_returns portfolio market_data window_days
  = []
  /\ ((1 <= window_days)%Z ->
      OREAdapter.calculate_cvar portfolio market_data
        (Some (RiskPort.mkVarParams cvar_method levels (Some window_days)))
      = Raise (InsufficientDataError window_days 0)
      /\ (Forall (fun c => 0 < c /\ c < 1)
            (match levels with
             | None => OREAdapter.default_levels
             | Some l => l
             end) ->
          OREAdapter.calculate_var norm_ppf series_std portfolio market_data
            method levels window_days
          = Raise (InsufficientDataError window_days 0))).
Proof.
  intros H.
  assert (E : OREAdapter._calculate_portfolio_returns portfolio market_data
                window_days = []).
  { unfold OREAdapter._calculate_portfolio_returns.
    pose proof (returns_data_unquoted market_data _ H) as Hd.
    cbv zeta in *. now rewrite Hd. }
  split; [exact E |]. intros Hwin.
  assert (L : (Z.of_nat (@length Q []) <? window_days)%Z = true)
    by (apply Z.ltb_lt; cbn [length]; lia).
  split.
  - unfold OREAdapter.calculate_cvar.
    cbn [RiskPort.vp_method RiskPort.vp_confidence_levels
         RiskPort.vp_window_days].
    rewrite E, L. reflexivity.
  - intros Hlev. unfold OREAdapter.calculate_var.
    rewrite (levels_checked _ Hlev). cbn [bind]. rewrite E, L. reflexivity.
Qed.

End Unquoted.

Lemma unquoted_portfolio_has_no_returns_witness :
  OREAdapter._calculate_portfolio_returns
    (Portfolio.mk [("TSLA", 1)] [("TSLA", 1)] 100 0%Z
       Portfolio.default_metadata) Sample.prices 250
  = [].
Proof.
  refine (proj1 (unquoted_portfolio_has_no_returns Sample.ppf Sample.std
                   (Portfolio.mk [("TSLA", 1)] [("TSLA", 1)] 100 0%Z
                      Portfolio.default_metadata) Sample.prices "historical"
                   None None 250 _)).
  intros symbol [<- | []]. reflexivity.
Defined.

(** ** Every scenario is accounted for *)

Section Accounting.

Variable risk_port : RiskPort.t.
Variable today : date.
Variable _generate_report :
  list StressTestingService.StressTestResult -> string -> result string.

Lemma collect_results_accounts (base_npv : cell)
    (stress_df : list RiskPort.StressRow)
    (scenarios : list StressScenario.t) :
  let found := fun name =>
    match StressTestingService.rows_named name stress_df with
    | [] => false
    | _ :: _ => true
    end in
  forall acc,
    exists results warnings,
      fold_left
        (fun acc scenario =>
           match StressTestingService.rows_named (StressScenario.name scenario)
                   stress_df with
           | [] => (fst acc,
                    snd acc ++ [StressTestingService.NoResults
                                  (StressScenario.name scenario)])
           | r :: _ =>
               (fst acc ++ [StressTestingService.mkResult
                              (StressScenario.name scenario) base_npv
                              (RiskPort.stressed_npv r) (RiskPort.pnl r)
                              (RiskPort.pct_change r)
                              (StressScenario.shocks scenario)],
                snd acc)
           end) scenarios acc
      = (fst acc ++ results, snd acc ++ warnings)
      /\ map StressTestingService.scenario_name results
         = filter found (map StressScenario.name scenarios)
      /\ warnings
         = map StressTestingService.NoResults
             (filter (fun name => negb (found name))
                     (map StressScenario.name scenarios))
      /\ (length results + length warnings = length scenarios)%nat.
Proof.
  intros found.
  induction scenarios as [| sc scenarios IH]; intros acc; cbn [fold_left].
  - exists [], []. rewrite !app_nil_r.
    split; [now destruct acc |]. repeat split.
  - cbn [map filter length].
    destruct (StressTestingService.rows_named (StressScenario.name sc)
                stress_df) as [| r rest] eqn:E.
    + assert (Ef : found (StressScenario.name sc) = false)
        by (unfold found; now rewrite E).
      rewrite Ef. cbn [negb].
      destruct (IH (fst acc,
                    snd acc ++ [StressTestingService.NoResults
                                  (StressScenario.name sc)]))
        as [results [warnings [H1 [H2 [H3 H4]]]]].
      rewrite H1. cbn [fst snd]. rewrite <- app_assoc.
      eexists. eexists. split; [reflexivity |].
      split; [exact H2 |]. split; [rewrite H3; reflexivity |].
      rewrite length_app. cbn [length]. lia.
    + assert (Ef : found (StressScenario.name sc) = true)
        by (unfold found; now rewrite E).
      rewrite Ef. cbn [negb].
      destruct (IH (fst acc ++ [StressTestingService.mkResult
                                  (StressScenario.name sc) base_npv
                                  (RiskPort.stressed_npv r) (RiskPort.pnl r)
                                  (RiskPort.pct_change r)
                                  (StressScenario.shocks sc)], snd acc))
        as [results [warnings [H1 [H2 [H3 H4]]]]].
      rewrite H1. cbn [fst snd]. rewrite <- app_assoc.
      eexists. eexists. split; [reflexivity |].
      split; [rewrite <- H2; reflexivity |].
      split; [exact H3 |]. rewrite length_app. cbn [length]. lia.
Qed.

Lemma validate_linearity_appends (portfolio : Portfolio.t)
    (market_data : DataFrame) (scenarios : list StressScenario.t)
    (warnings : list StressTestingService.warning) :
  exists flag extra,
    StressTestingService._validate_linearity risk_port today portfolio
      market_data scenarios warnings = Ok (flag, warnings ++ extra)
    /\ (length extra <= 1)%nat
    /\ Forall (fun w => forall name, w <> StressTestingService.NoResults name)
              extra.
Proof.
  unfold StressTestingService._validate_linearity.
  destruct (linearity_scenarios_constructed today) as [-> ->]. cbn [bind].
  assert (Hnil : exists flag extra,
            Ok (flag, warnings) = Ok (flag, warnings ++ extra)
            /\ (length extra <= 1)%nat
            /\ Forall (fun w => forall name,
                         w <> StressTestingService.NoResults name) extra)
    by (exists true, []; rewrite app_nil_r; repeat split; auto).
  destruct (RiskPort.stress_test _ _ _ _) as [rows | e].
  - destruct (StressTestingService.rows_named "Linearity_10pct" rows);
      [exists true, []; rewrite app_nil_r; repeat split; auto |].
    destruct (StressTestingService.rows_named "Linearity_20pct" rows);
      [exists true, []; rewrite app_nil_r; repeat split; auto |].
    destruct (StressTestingService.cell_ltb _ _);
      [exists true, []; rewrite app_nil_r; repeat split; auto |].
    destruct (StressTestingService.cell_leb _ _);
      [exists true, []; rewrite app_nil_r; repeat split; auto |].
    eexists. eexists. split; [reflexivity |]. split; [cbn; lia |].
    repeat constructor. discriminate.
  - eexists. eexists. split; [reflexivity |]. split; [cbn; lia |].
    repeat constructor. discriminate.
Qed.

(** X23: with any risk engine, a response of the stress-testing service
    accounts for every scenario of the request: the scenarios whose name
    has a row in the engine's frame get a result, in the order of the
    request, the others a warning each, so results and these warnings
    together are as many as the scenarios; the linearity check adds at
    most one warning of its own. *)
Theorem every_scenario_is_accounted_for
    (request : StressTestingService.StressTestRequest)
    (response : StressTestingService.StressTestResponse) :
  StressTestingService.run risk_port today _generate_report request
  = Ok response ->
  exists stress_df extra,
    RiskPort.stress_test risk_port (StressTestingService.portfolio request)
      (StressTestingService.market_data request)
      (StressTestingService.scenarios request) = Ok stress_df
    /\ let names :=
         map StressScenario.name (StressTestingService.scenarios request) in
       let found := fun name =>
         match StressTestingService.rows_named name stress_df with
         | [] => false
         | _ :: _ => true
         end in
       map StressTestingService.scenario_name
           (StressTestingService.results response)
       = filter found names
       /\ StressTestingService.warnings response
          = map StressTestingService.NoResults
                (filter (fun name => negb (found name)) names) ++ extra
       /\ (length (StressTestingService.results response)
           + length (StressTestingService.warnings response)
           = length names + length extra)%nat
       /\ (length extra <= 1)%nat
       /\ (StressTestingService.validate_linearity request = false ->
           extra = []).
Proof.
  unfold StressTestingService.run. intros H.
  destruct (StressTestingService.scenarios request) as [| sc0 rest] eqn:Es;
    [discriminate |].
  rewrite <- Es in *.
  destruct (RiskPort.value_portfolio _ _ _) as [base_npv |]; cbn [bind] in H;
    [| discriminate].
  destruct (RiskPort.stress_test risk_port _ _ _) as [stress_df |];
    cbn [bind] in H; [| discriminate].
  unfold StressTestingService.collect_results in H.
  destruct (collect_results_accounts base_npv stress_df
              (StressTestingService.scenarios request) ([], []))
    as [results [warnings [H1 [H2 [H3 H4]]]]].
  cbn [fst snd] in H1. rewrite !app_nil_l in H1.
  rewrite H1 in H. cbv beta iota in H.
  exists stress_df.
  destruct (StressTestingService.validate_linearity request).
  - destruct (validate_linearity_appends
                (StressTestingService.portfolio request)
                (StressTestingService.market_data request)
                (StressTestingService.scenarios request) warnings)
      as [flag [extra [Hl [Hlen _]]]].
    rewrite Hl in H. cbn [bind fst snd] in H.
    destruct (StressTestingService.generate_report request).
    + destruct (_generate_report results _); cbn [bind] in H;
        [| discriminate].
      injection H as <-. exists extra.
      cbn [StressTestingService.results StressTestingService.warnings].
      split; [reflexivity |]. cbv zeta.
      split; [exact H2 |]. split; [now rewrite H3 |].
      split; [rewrite length_app, length_map; lia |].
      split; [exact Hlen | discriminate].
    + cbn [bind] in H. injection H as <-. exists extra.
      cbn [StressTestingService.results StressTestingService.warnings].
      split; [reflexivity |]. cbv zeta.
      split; [exact H2 |]. split; [now rewrite H3 |].
      split; [rewrite length_app, length_map; lia |].
      split; [exact Hlen | discriminate].
  - cbn [bind fst snd] in H.
    destruct (StressTestingService.generate_report request).
    + destruct (_generate_report results _); cbn [bind] in H;
        [| discriminate].
      injection H as <-. exists [].
      cbn [StressTestingService.results StressTestingService.warnings].
      split; [reflexivity |]. cbv zeta. rewrite app_nil_r.
      split; [exact H2 |]. split; [exact H3 |].
      split; [rewrite length_map; cbn [length]; lia |].
      split; [cbn; lia | reflexivity].
    + cbn [bind] in H. injection H as <-. exists [].
      cbn [StressTestingService.results StressTestingService.warnings].
      split; [reflexivity |]. cbv zeta. rewrite app_nil_r.
      split; [exact H2 |]. split; [exact H3 |].
      split; [rewrite length_map; cbn [length]; lia |].
      split; [cbn; lia | reflexivity].
Qed.

End Accounting.

Lemma every_scenario_is_accounted_for_witness :
  exists stress_df,
    RiskPort.stress_test Sample.convex_port Sample.single_portfolio
      Sample.rising_prices [Sample.equity_down_10] = Ok stress_df.
Proof.
  assert (Hrun : exists response,
            StressTestingService.run Sample.convex_port 0%Z
              (fun _ _ => Ok "report.html")
              (StressTestingService.mkRequest Sample.single_portfolio
                 [Sample.equity_down_10] Sample.rising_prices false false
                 "out")
            = Ok response) by (eexists; reflexivity).
  destruct Hrun as [response Hrun].
  destruct (every_scenario_is_accounted_for Sample.convex_port 0%Z
              (fun _ _ => Ok "report.html") _ response Hrun)
    as [stress_df [extra [H _]]].
  exists stress_df. exact H.
Defined.
